(** * AI-Lead-Frontend: lead capture, scoring call, leads table and CSV export

    A shallow embedding of the three React components of the repository:

    - [LeadForm]   (components/LeadForm.jsx): the draft, [handleSubmit];
    - [LeadsTable] (components/LeadsTable.jsx): [getScoreTag], [exportToCSV];
    - [App]        (App.jsx): the list of leads, [handleLeadSubmit].

    React state is explicit: one record [State] holds the [useState] cells of
    the three components together with the effects the handlers have on the
    outside world (alerts, console, HTTP requests, timers, downloads).
    [handleSubmit] is an [async] function: it is split at its single [await]
    into the part that runs when the form is submitted and the continuation
    that runs when the scoring request settles. *)

From Stdlib Require Import QArith ZArith String Lia DecimalString List.
From stdpp Require Import base list strings.

Open Scope string_scope.

(** ** JavaScript values *)

Module Js.

(** A JS number: every finite double is a rational; the three remaining
    doubles are kept apart.  (The two zeros are not distinguished: nothing
    in the program tells them apart.) *)
Inductive number : Type :=
  | NaN
  | Infinity
  | NegInfinity
  | Finite (q : Q).

(** The primitive values that the program handles. *)
Inductive value : Type :=
  | Undefined
  | Null
  | Bool (b : bool)
  | Num (n : number)
  | Str (s : string).

Definition num (q : Q) : value := Num (Finite q).

(** [ToBoolean] *)
Definition ToBoolean (v : value) : bool :=
  match v with
  | Undefined | Null => false
  | Bool b => b
  | Num NaN => false
  | Num (Finite q) => negb (Qeq_bool q 0)
  | Num _ => true
  | Str s => negb (String.eqb s "")
  end.

(** [x >= c] on numbers, for a finite [c]: false as soon as [x] is NaN. *)
Definition number_ge (x : number) (c : Q) : bool :=
  match x with
  | NaN => false
  | Infinity => true
  | NegInfinity => false
  | Finite q => Qle_bool c q
  end.

(** [v ?? d] *)
Definition nullish (v d : value) : value :=
  match v with
  | Undefined | Null => d
  | _ => v
  end.

Section Platform.

(** [Number::toString] on the finite numbers whose rendering depends on the
    digits of the double: the non-integers, and the integers beyond 2^53,
    which a double holds only rounded. *)
Variable fractionToString : Q -> string.

(** [StringToNumber], used when a string meets a relational operator. *)
Variable StringToNumber : string -> number.

Definition Number_toString (n : number) : string :=
  match n with
  | NaN => "NaN"
  | Infinity => "Infinity"
  | NegInfinity => "-Infinity"
  | Finite q =>
      let r := Qred q in
      if (Pos.eqb (Qden r) 1 && (Z.abs (Qnum r) <=? 2 ^ 53)%Z)%bool
      then NilZero.string_of_int (Z.to_int (Qnum r))
      else fractionToString q
  end.

(** [ToString], as applied by template literals. *)
Definition ToString (v : value) : string :=
  match v with
  | Undefined => "undefined"
  | Null => "null"
  | Bool true => "true"
  | Bool false => "false"
  | Num n => Number_toString n
  | Str s => s
  end.

(** [ToNumber] *)
Definition ToNumber (v : value) : number :=
  match v with
  | Undefined => NaN
  | Null => Finite 0
  | Bool true => Finite 1
  | Bool false => Finite 0
  | Num n => n
  | Str s => StringToNumber s
  end.

(** [v >= c] for a numeric literal [c]. *)
Definition ge (v : value) (c : Q) : bool := number_ge (ToNumber v) c.

(** [Array.prototype.join]: [undefined] and [null] elements give the empty
    string, the other elements are converted with [ToString]. *)
Definition join_element (v : value) : string :=
  match v with
  | Undefined | Null => ""
  | _ => ToString v
  end.

Definition join (sep : string) (row : list value) : string :=
  String.concat sep (map join_element row).

End Platform.

End Js.

(** A concrete platform, for the examples: the other numbers are printed
    as [num/den], and the texts read as numbers are the decimal integers
    (with the empty string read as 0 by [StringToNumber]). *)
Definition slashToString (q : Q) : string :=
  NilZero.string_of_int (Z.to_int (Qnum q)) +:+ "/" +:+
  NilZero.string_of_uint (Pos.to_uint (Qden q)).

Definition decimalAsNumber (s : string) : option Q :=
  match NilZero.int_of_string s with
  | Some i => Some (inject_Z (Z.of_int i))
  | None => None
  end.

Definition decimalToNumber (s : string) : Js.number :=
  if String.eqb s "" then Js.Finite 0
  else match decimalAsNumber s with
       | Some q => Js.Finite q
       | None => Js.NaN
       end.

Definition dquote : string := String (Ascii.ascii_of_nat 34) "".
Definition newline : string := String (Ascii.ascii_of_nat 10) "".

(** ** Data *)

(** The draft of LeadForm.jsx, in the order of its [useState] literal. *)
Record FormData : Type := mkFormData {
  phone : Js.value;
  email : Js.value;
  creditScore : Js.value;
  ageGroup : Js.value;
  maritalStatus : Js.value;
  comments : Js.value;
  consent : Js.value;
  annualIncome : Js.value;
  netWorth : Js.value;
  employmentStatus : Js.value
}.

(** [{ ...formData, initialScore, rerankedScore }] *)
Record Lead : Type := mkLead {
  fields : FormData;
  initialScore : Js.value;
  rerankedScore : Js.value
}.

(** The controls whose [onChange] stores [e.target.value]. *)
Inductive Field : Type :=
  | Phone | Email | CreditScore | AgeGroup | MaritalStatus
  | AnnualIncome | NetWorth | EmploymentStatus | Comments.

(** What [response.data] can be: [null]/[undefined] (destructuring it
    throws), or something whose two properties can be read (a missing
    property reads as [undefined]). *)
Inductive ResponseData : Type :=
  | DataNullish
  | DataObject (initialScore rerankedScore : Js.value).

Inductive Failure : Type :=
  | NetworkError
  | BadStatus (status : Z).

(** How the promise of [axios.post] settles. *)
Inductive PostResult : Type :=
  | Resolved (data : ResponseData)
  | Rejected (reason : Failure).

(** What the [catch] clause of [handleSubmit] receives. *)
Inductive Caught : Type :=
  | RequestError (reason : Failure)
  | TypeError.

Record Request : Type := mkRequest { url : string; body : FormData }.

Inductive LogLine : Type :=
  | Log (message : string) (lead : Lead)
  | LogError (message : string) (error : Caught).

Inductive Callback : Type := HideFormToast | HideTableToast.

(** A pending [setTimeout(callback, delay)]. *)
Record Timer : Type := mkTimer { callback : Callback; delay : Z }.

(** The [<span className=...>text</span>] elements of LeadsTable.jsx. *)
Record Span : Type := mkSpan { className : string; children : string }.

Definition spanNA : Span := mkSpan "text-gray-400" "N/A".
Definition spanHigh : Span := mkSpan "text-green-600 font-semibold" "High".
Definition spanMid : Span := mkSpan "text-yellow-600 font-semibold" "Mid".
Definition spanLow : Span := mkSpan "text-red-600 font-semibold" "Low".

(** A file handed to the browser by [link.click()]. *)
Record Download : Type := mkDownload {
  filename : string;
  mimeType : string;
  content : string
}.

(** The [useState] cells of the three components, the invocations of
    [handleSubmit] suspended at their [await] (each with the [formData] its
    closure captured), and the trace of effects. *)
Record State : Type := mkState {
  formData : FormData;
  form_showToast : bool;
  leads : list Lead;
  table_showToast : bool;
  awaiting : list FormData;
  requests : list Request;
  alerts : list string;
  console : list LogLine;
  timers : list Timer;
  downloads : list Download
}.

Definition initialFormData : FormData :=
  {| phone := Js.Str "";
     email := Js.Str "";
     creditScore := Js.Str "";
     ageGroup := Js.Str "";
     maritalStatus := Js.Str "";
     comments := Js.Str "";
     consent := Js.Bool false;
     annualIncome := Js.Str "";
     netWorth := Js.Str "";
     employmentStatus := Js.Str "" |}.

Definition initialState : State :=
  {| formData := initialFormData;
     form_showToast := false;
     leads := [];
     table_showToast := false;
     awaiting := [];
     requests := [];
     alerts := [];
     console := [];
     timers := [];
     downloads := [] |}.

(** *** State updates *)

Definition setFormData (x : FormData) (st : State) : State :=
  mkState x (form_showToast st) (leads st) (table_showToast st) (awaiting st)
    (requests st) (alerts st) (console st) (timers st) (downloads st).

Definition setShowToast_form (x : bool) (st : State) : State :=
  mkState (formData st) x (leads st) (table_showToast st) (awaiting st)
    (requests st) (alerts st) (console st) (timers st) (downloads st).

Definition setLeads (f : list Lead -> list Lead) (st : State) : State :=
  mkState (formData st) (form_showToast st) (f (leads st)) (table_showToast st)
    (awaiting st) (requests st) (alerts st) (console st) (timers st)
    (downloads st).

Definition setShowToast_table (x : bool) (st : State) : State :=
  mkState (formData st) (form_showToast st) (leads st) x (awaiting st)
    (requests st) (alerts st) (console st) (timers st) (downloads st).

Definition setAwaiting (x : list FormData) (st : State) : State :=
  mkState (formData st) (form_showToast st) (leads st) (table_showToast st) x
    (requests st) (alerts st) (console st) (timers st) (downloads st).

Definition setTimers (x : list Timer) (st : State) : State :=
  mkState (formData st) (form_showToast st) (leads st) (table_showToast st)
    (awaiting st) (requests st) (alerts st) (console st) x (downloads st).

Definition alert (message : string) (st : State) : State :=
  mkState (formData st) (form_showToast st) (leads st) (table_showToast st)
    (awaiting st) (requests st) (alerts st ++ [message]) (console st)
    (timers st) (downloads st).

Definition console_write (line : LogLine) (st : State) : State :=
  mkState (formData st) (form_showToast st) (leads st) (table_showToast st)
    (awaiting st) (requests st) (alerts st) (console st ++ [line]) (timers st)
    (downloads st).

Definition setTimeout (cb : Callback) (ms : Z) (st : State) : State :=
  setTimers (timers st ++ [mkTimer cb ms]) st.

(** [axios.post(url, body)] followed by [await]: the request goes out and the
    caller is suspended, remembered by the [formData] of its closure. *)
Definition axios_post (address : string) (data : FormData) (st : State) : State :=
  mkState (formData st) (form_showToast st) (leads st) (table_showToast st)
    (awaiting st ++ [data]) (requests st ++ [mkRequest address data])
    (alerts st) (console st) (timers st) (downloads st).

Definition link_click (file : Download) (st : State) : State :=
  mkState (formData st) (form_showToast st) (leads st) (table_showToast st)
    (awaiting st) (requests st) (alerts st) (console st) (timers st)
    (downloads st ++ [file]).

(** [{ ...formData, name: value }] *)
Definition setField (f : Field) (v : Js.value) (d : FormData) : FormData :=
  match f with
  | Phone => mkFormData v (email d) (creditScore d) (ageGroup d)
      (maritalStatus d) (comments d) (consent d) (annualIncome d) (netWorth d)
      (employmentStatus d)
  | Email => mkFormData (phone d) v (creditScore d) (ageGroup d)
      (maritalStatus d) (comments d) (consent d) (annualIncome d) (netWorth d)
      (employmentStatus d)
  | CreditScore => mkFormData (phone d) (email d) v (ageGroup d)
      (maritalStatus d) (comments d) (consent d) (annualIncome d) (netWorth d)
      (employmentStatus d)
  | AgeGroup => mkFormData (phone d) (email d) (creditScore d) v
      (maritalStatus d) (comments d) (consent d) (annualIncome d) (netWorth d)
      (employmentStatus d)
  | MaritalStatus => mkFormData (phone d) (email d) (creditScore d)
      (ageGroup d) v (comments d) (consent d) (annualIncome d) (netWorth d)
      (employmentStatus d)
  | Comments => mkFormData (phone d) (email d) (creditScore d) (ageGroup d)
      (maritalStatus d) v (consent d) (annualIncome d) (netWorth d)
      (employmentStatus d)
  | AnnualIncome => mkFormData (phone d) (email d) (creditScore d)
      (ageGroup d) (maritalStatus d) (comments d) (consent d) v (netWorth d)
      (employmentStatus d)
  | NetWorth => mkFormData (phone d) (email d) (creditScore d) (ageGroup d)
      (maritalStatus d) (comments d) (consent d) (annualIncome d) v
      (employmentStatus d)
  | EmploymentStatus => mkFormData (phone d) (email d) (creditScore d)
      (ageGroup d) (maritalStatus d) (comments d) (consent d) (annualIncome d)
      (netWorth d) v
  end.

Definition setConsent (v : Js.value) (d : FormData) : FormData :=
  mkFormData (phone d) (email d) (creditScore d) (ageGroup d) (maritalStatus d)
    (comments d) v (annualIncome d) (netWorth d) (employmentStatus d).

Section Frontend.

(** The three functions of the platform that the components rely on. *)

(** [Number::toString] away from the integers up to 2^53. *)
Variable fractionToString : Q -> string.

(** [StringToNumber]. *)
Variable StringToNumber : string -> Js.number.

(** How an [<input type="number">] reads its text as a number ([None]
    when the text is not a number). *)
Variable valueAsNumber : string -> option Q.

(** ** App.jsx *)

(** [setLeads((prev) => [...prev, leadData])] *)
Definition handleLeadSubmit (leadData : Lead) (st : State) : State :=
  let st := console_write (Log "✅ App.jsx received new lead:" leadData) st in
  setLeads (fun prev => (prev ++ [leadData])%list) st.

(** ** LeadForm.jsx *)

(** The [catch] clause. *)
Definition handleSubmit_catch (error : Caught) (st : State) : State :=
  let st := console_write (LogError "❌ Error submitting lead:" error) st in
  alert "Something went wrong while submitting. Please check your FastAPI backend." st.

(** [handleSubmit] from its entry to the [await]: the consent check, then
    the request.  ([e.preventDefault()] only keeps the browser from
    leaving the page.) *)
Definition handleSubmit (st : State) : State :=
  if negb (Js.ToBoolean (consent (formData st))) then
    alert "❗ Please consent to data processing." st
  else
    axios_post "http://localhost:8000/score" (formData st) st.

(** [handleSubmit] after the [await], once the request has settled.
    [formData] is the draft captured when the handler was entered; [st] is
    the state at the time the continuation runs. *)
Definition handleSubmit_resume (formData : FormData) (response : PostResult)
    (st : State) : State :=
  match response with
  | Resolved (DataObject initialScore rerankedScore) =>
      let newLead := mkLead formData initialScore rerankedScore in
      let st := console_write (Log "✅ Lead submitted to backend:" newLead) st in
      let st := handleLeadSubmit newLead st in
      let st := setShowToast_form true st in
      let st := setTimeout HideFormToast 2000 st in
      setFormData initialFormData st
  | Resolved DataNullish => handleSubmit_catch TypeError st
  | Rejected reason => handleSubmit_catch (RequestError reason) st
  end.

(** [onChange] of the text, number and select controls and of the
    textarea, and of the consent checkbox. *)
Definition handleChange (f : Field) (value : string) (st : State) : State :=
  setFormData (setField f (Js.Str value) (formData st)) st.

Definition handleCheck (checked : bool) (st : State) : State :=
  setFormData (setConsent (Js.Bool checked) (formData st)) st.

(** The constraints of the credit score control:
    [type="number" required min="300" max="850"], with the default step 1
    counted from [min].  The browser dispatches the submit event only if
    they hold of the control's value. *)
Definition isInteger (q : Q) : bool := Pos.eqb (Qden (Qred q)) 1.

Definition creditScore_valid (v : Js.value) : bool :=
  match v with
  | Js.Str s =>
      negb (String.eqb s "") &&
      match valueAsNumber s with
      | Some q => Qle_bool 300 q && Qle_bool q 850 && isInteger (q - 300)
      | None => false
      end
  | _ => false
  end.

(** ** LeadsTable.jsx *)

Definition getScoreTag (score : Js.value) : Span :=
  match score with
  | Js.Null | Js.Undefined => spanNA
  | _ =>
      if Js.ge StringToNumber score 70 then spanHigh
      else if Js.ge StringToNumber score 40 then spanMid
      else spanLow
  end.

Definition headers : list Js.value :=
  [ Js.Str "Phone";
    Js.Str "Email";
    Js.Str "Credit Score";
    Js.Str "Age Group";
    Js.Str "Marital Status";
    Js.Str "Comments";
    Js.Str "Consent";
    Js.Str "Initial Score";
    Js.Str "Reranked Score" ].

Definition row (lead : Lead) : list Js.value :=
  [ phone (fields lead);
    email (fields lead);
    creditScore (fields lead);
    ageGroup (fields lead);
    maritalStatus (fields lead);
    Js.Str (dquote +:+ Js.ToString fractionToString (comments (fields lead)) +:+ dquote);
    Js.Str (if Js.ToBoolean (consent (fields lead)) then "Yes" else "No");
    Js.nullish (initialScore lead) (Js.Str "N/A");
    Js.nullish (rerankedScore lead) (Js.Str "N/A") ].

Definition rows (leads : list Lead) : list (list Js.value) := map row leads.

Definition csvContent (leads : list Lead) : string :=
  String.concat newline (map (Js.join fractionToString ",") (headers :: rows leads)).

(** The Blob, its object URL and the [<a>] element serve only to hand the
    file over; what remains of them is the download. *)
Definition exportToCSV (st : State) : State :=
  match leads st with
  | [] => st
  | _ =>
      let file := mkDownload "leads_export.csv" "text/csv;charset=utf-8;"
                    (csvContent (leads st)) in
      let st := link_click file st in
      let st := setShowToast_table true st in
      setTimeout HideTableToast 2000 st
  end.

(** The cells of one [<tr>] of the table. *)
Inductive Cell : Type :=
  | Text (v : Js.value)
  | Tag (s : Span).

Definition tableRow (lead : Lead) : list Cell :=
  [ Text (phone (fields lead));
    Text (email (fields lead));
    Text (creditScore (fields lead));
    Text (ageGroup (fields lead));
    Text (maritalStatus (fields lead));
    Text (comments (fields lead));
    Text (Js.Str (if Js.ToBoolean (consent (fields lead)) then "Yes" else "No"));
    Tag (getScoreTag (initialScore lead));
    Tag (getScoreTag (rerankedScore lead)) ].

(** ** The page as a transition system *)

(** What can happen to the page: the user edits a control, ticks the
    consent box, submits the form or clicks Export CSV; the request of the
    [k]-th suspended [handleSubmit] settles; the [k]-th pending timer fires. *)
Inductive Event : Type :=
  | Change (f : Field) (value : string)
  | Check (checked : bool)
  | Submit
  | Settle (k : nat) (response : PostResult)
  | Fire (k : nat)
  | ExportClick.

Definition runCallback (cb : Callback) (st : State) : State :=
  match cb with
  | HideFormToast => setShowToast_form false st
  | HideTableToast => setShowToast_table false st
  end.

Definition step (ev : Event) (st : State) : State :=
  match ev with
  | Change f value => handleChange f value st
  | Check checked => handleCheck checked st
  | Submit => handleSubmit st
  | Settle k response =>
      match awaiting st !! k with
      | Some captured =>
          handleSubmit_resume captured response
            (setAwaiting (delete k (awaiting st)) st)
      | None => st
      end
  | Fire k =>
      match timers st !! k with
      | Some t => runCallback (callback t) (setTimers (delete k (timers st)) st)
      | None => st
      end
  | ExportClick => exportToCSV st
  end.

Fixpoint run (trace : list Event) (st : State) : State :=
  match trace with
  | [] => st
  | ev :: rest => run rest (step ev st)
  end.

(** [submit(backend)]: one submission carried through without anything
    else happening in between; [backend] is the scoring service.  The
    request, if one goes out, is the last of the suspended ones; if none
    goes out (no consent) nothing settles. *)
Definition submit (backend : FormData -> PostResult) (st : State) : State :=
  run [Submit; Settle (length (awaiting st)) (backend (formData st))] st.

(** Every submit event of the trace was let through by the constraint
    validation of the credit score control. *)
Fixpoint validated (trace : list Event) (st : State) : bool :=
  match trace with
  | [] => true
  | ev :: rest =>
      match ev with
      | Submit => creditScore_valid (creditScore (formData st))
      | _ => true
      end && validated rest (step ev st)
  end.

(** ** The CSV document in the words of the specification *)

Definition csv_header_line : string :=
  "Phone,Email,Credit Score,Age Group,Marital Status,Comments,Consent,Initial Score,Reranked Score".

(** A cell holds the text of its value; nothing for [null]/[undefined]. *)
Definition csv_cell (v : Js.value) : string := Js.join_element fractionToString v.

Definition csv_quoted (v : Js.value) : string :=
  dquote +:+ Js.ToString fractionToString v +:+ dquote.

Definition csv_yes_no (v : Js.value) : string :=
  if Js.ToBoolean v then "Yes" else "No".

Definition csv_score (v : Js.value) : string :=
  match v with
  | Js.Undefined | Js.Null => "N/A"
  | _ => csv_cell v
  end.

Definition csv_row_line (lead : Lead) : string :=
  csv_cell (phone (fields lead)) +:+ "," +:+
  csv_cell (email (fields lead)) +:+ "," +:+
  csv_cell (creditScore (fields lead)) +:+ "," +:+
  csv_cell (ageGroup (fields lead)) +:+ "," +:+
  csv_cell (maritalStatus (fields lead)) +:+ "," +:+
  csv_quoted (comments (fields lead)) +:+ "," +:+
  csv_yes_no (consent (fields lead)) +:+ "," +:+
  csv_score (initialScore lead) +:+ "," +:+
  csv_score (rerankedScore lead).

Definition csv_document (leads : list Lead) : string :=
  csv_header_line +:+
  String.concat "" (map (fun lead => newline +:+ csv_row_line lead) leads).

(** The lines of a text: the pieces between line feeds. *)
Fixpoint lines_from (current : string) (s : string) : list string :=
  match s with
  | EmptyString => [current]
  | String c rest =>
      if Ascii.eqb c (Ascii.ascii_of_nat 10)
      then current :: lines_from "" rest
      else lines_from (current +:+ String c "") rest
  end.

Definition lines (s : string) : list string := lines_from "" s.

(** ** Sample data *)

(** The record of the specification's export example. *)
Definition sampleRecord : Lead :=
  {| fields :=
       {| phone := Js.Str "A";
          email := Js.Str "a@x.com";
          creditScore := Js.num 700;
          ageGroup := Js.Str "18-25";
          maritalStatus := Js.Str "Single";
          comments := Js.Str "hi";
          consent := Js.Bool true;
          annualIncome := Js.num 1;
          netWorth := Js.num 1;
          employmentStatus := Js.Str "Employed" |};
     initialScore := Js.num 80;
     rerankedScore := Js.Null |}.

(** A draft as the form produces it: every control holds text. *)
Definition sampleDraft (phoneText : string) : FormData :=
  {| phone := Js.Str phoneText;
     email := Js.Str "john@example.com";
     creditScore := Js.Str "700";
     ageGroup := Js.Str "26-35";
     maritalStatus := Js.Str "Married";
     comments := Js.Str "";
     consent := Js.Bool true;
     annualIncome := Js.Str "800000";
     netWorth := Js.Str "2000000";
     employmentStatus := Js.Str "Employed" |}.

(** The user filling the form in. *)
Definition fillIn (phoneText : string) : list Event :=
  [ Change Phone phoneText;
    Change Email "john@example.com";
    Change CreditScore "700";
    Change AgeGroup "26-35";
    Change MaritalStatus "Married";
    Change AnnualIncome "800000";
    Change NetWorth "2000000";
    Change EmploymentStatus "Employed";
    Check true ].

Definition scored (i r : Q) : PostResult :=
  Resolved (DataObject (Js.num i) (Js.num r)).

(** The page with the form filled in, and with one lead in the table. *)
Definition filledState (phoneText : string) : State :=
  setFormData (sampleDraft phoneText) initialState.

Definition tableState : State :=
  setLeads (fun _ => [sampleRecord]) initialState.

(** Scoring services: two that answer, one that cannot be reached. *)
Definition scoringOk : FormData -> PostResult := fun _ => scored 80 75.
Definition scoringOk' : FormData -> PostResult := fun _ => scored 55 60.
Definition scoringDown : FormData -> PostResult :=
  fun _ => Rejected NetworkError.

(** Two submissions in flight at once, the second answered first. *)
Definition overlappingTrace : list Event :=
  (fillIn "+91-1" ++
   [ Submit;
     Change Phone "+91-2";
     Submit;
     Settle 1 (scored 55 60);
     Settle 0 (scored 80 75) ])%list.

(** One submission through the form. *)
Definition singleTrace : list Event :=
  (fillIn "+91-1" ++ [ Submit; Settle 0 (scored 80 75) ])%list.

(** ** Auxiliary notions for the proofs *)

(** The state in which the continuation of an uninterrupted submission
    runs: the request has gone out, nothing else has changed. *)
Definition requested (st : State) : State :=
  mkState (formData st) (form_showToast st) (leads st) (table_showToast st)
    (awaiting st)
    (requests st ++ [mkRequest "http://localhost:8000/score" (formData st)])
    (alerts st) (console st) (timers st) (downloads st).

(** Events that are neither a submission nor the arrival of a response. *)
Definition quiet (ev : Event) : bool :=
  match ev with
  | Submit | Settle _ _ => false
  | _ => true
  end.

(** The draft consented, and its scoring request is among those made. *)
Definition consented (st : State) (d : FormData) : Prop :=
  consent d = Js.Bool true /\
  In (mkRequest "http://localhost:8000/score" d) (requests st).

Definition textual (d : FormData) : Prop :=
  exists s : string, creditScore d = Js.Str s.

(** What holds of every state the page can reach. *)
Record Invariant (st : State) : Prop := mkInvariant {
  inv_consent : exists b : bool, consent (formData st) = Js.Bool b;
  inv_text : textual (formData st);
  inv_awaiting : Forall (fun d => consented st d /\ textual d) (awaiting st);
  inv_leads :
    Forall (fun lead => consented st (fields lead) /\ textual (fields lead))
      (leads st)
}.

(** The text of a credit score control that passed validation. *)
Definition inRange (d : FormData) : Prop :=
  exists (s : string) (q : Q) (z : Z),
    creditScore d = Js.Str s /\
    valueAsNumber s = Some q /\
    (q == inject_Z z)%Q /\
    (300 <= z <= 850)%Z.

Fixpoint no_newline (s : string) : bool :=
  match s with
  | EmptyString => true
  | String c rest =>
      negb (Ascii.eqb c (Ascii.ascii_of_nat 10)) && no_newline rest
  end.

(** ** What the components render *)

(** LeadsTable.jsx, its [return]: the toast while [showToast] is set, the
    heading, the Export CSV button when there are leads, and then either the
    sentence that there are none or the table, one [<tr>] for each lead. *)
Inductive TableBody : Type :=
  | NoLeads (message : string)
  | Table (head : list string) (body : list (list Cell)).

Record TableView : Type := mkTableView {
  view_toast : option string;
  view_title : string;
  view_button : option string;
  view_body : TableBody
}.

Definition LeadsTable (st : State) : TableView :=
  {| view_toast :=
       if table_showToast st then Some "Leads exported as CSV!" else None;
     view_title := "Submitted Leads";
     view_button :=
       match leads st with
       | [] => None
       | _ => Some "Export CSV"
       end;
     view_body :=
       match leads st with
       | [] => NoLeads "No leads submitted yet."
       | _ =>
           Table
             [ "Phone"; "Email"; "Credit Score"; "Age Group"; "Marital Status";
               "Comments"; "Consent"; "Initial"; "Re-ranked" ]
             (map tableRow (leads st))
       end |}.

(** LeadForm.jsx: the toast of the form, and [formData[name]] as the
    controls read it for their [value]. *)
Definition LeadForm_toast (st : State) : option string :=
  if form_showToast st then Some "Lead Submitted!" else None.

Definition getField (f : Field) (d : FormData) : Js.value :=
  match f with
  | Phone => phone d
  | Email => email d
  | CreditScore => creditScore d
  | AgeGroup => ageGroup d
  | MaritalStatus => maritalStatus d
  | Comments => comments d
  | AnnualIncome => annualIncome d
  | NetWorth => netWorth d
  | EmploymentStatus => employmentStatus d
  end.

(** ** Further notions for the proofs *)

(** Every control of the draft holds text, and the consent box a boolean. *)
Definition allText (d : FormData) : Prop :=
  (forall f : Field, exists s : string, getField f d = Js.Str s) /\
  (exists b : bool, consent d = Js.Bool b).

(** A request to the scoring service for a draft that consented. *)
Definition scoringRequest (r : Request) : Prop :=
  url r = "http://localhost:8000/score" /\ consent (body r) = Js.Bool true.

(** A toast that is up has the timer that takes it down pending. *)
Definition toastsTimed (st : State) : Prop :=
  (form_showToast st = true -> In (mkTimer HideFormToast 2000) (timers st)) /\
  (table_showToast st = true -> In (mkTimer HideTableToast 2000) (timers st)).

(** ** Properties of [getScoreTag] *)

Lemma getScoreTag_finite (q : Q) :
  getScoreTag (Js.num q) =
    if Qle_bool 70 q then spanHigh
    else if Qle_bool 40 q then spanMid
    else spanLow.
Proof. reflexivity. Qed.

Lemma Qle_bool_false (x y : Q) : (y < x)%Q -> Qle_bool x y = false.
Proof.
  intros Hlt. destruct (Qle_bool x y) eqn:E; [|reflexivity].
  apply Qle_bool_iff in E. exfalso. apply (Qlt_not_le _ _ Hlt E).
Qed.

Lemma Qle_bool_true (x y : Q) : (x <= y)%Q -> Qle_bool x y = true.
Proof. intros H. apply Qle_bool_iff. exact H. Qed.

(** C4.  [getScoreTag] is a function defined on every score; it gives
    High from 70 up, Mid from 40 up to but not including 70, Low below 40,
    and N/A when the score is [undefined]; in particular at 70, 69.999,
    40, 39.999 and [undefined]. *)
Theorem getScoreTag_thresholds :
  (forall q : Q, (70 <= q)%Q -> getScoreTag (Js.num q) = spanHigh) /\
  (forall q : Q, (40 <= q)%Q -> (q < 70)%Q -> getScoreTag (Js.num q) = spanMid) /\
  (forall q : Q, (q < 40)%Q -> getScoreTag (Js.num q) = spanLow) /\
  getScoreTag Js.Undefined = spanNA /\
  getScoreTag (Js.num 70) = spanHigh /\
  getScoreTag (Js.num (69999 # 1000)) = spanMid /\
  getScoreTag (Js.num 40) = spanMid /\
  getScoreTag (Js.num (39999 # 1000)) = spanLow /\
  children spanHigh = "High" /\ children spanMid = "Mid" /\
  children spanLow = "Low" /\ children spanNA = "N/A" /\
  (forall score : Js.value,
      In (getScoreTag score) [spanHigh; spanMid; spanLow; spanNA]).
Proof.
  split; [|split; [|split]].
  - intros q H. rewrite getScoreTag_finite, Qle_bool_true; auto.
  - intros q H40 H70.
    rewrite getScoreTag_finite, Qle_bool_false, Qle_bool_true; auto.
  - intros q H.
    assert (q < 70)%Q by (eapply Qlt_trans; [exact H | reflexivity]).
    rewrite getScoreTag_finite, !Qle_bool_false; auto.
  - do 9 (split; [reflexivity|]).
    intros score. unfold getScoreTag.
    destruct score as [| | b | n | s]; cbn [In]; auto;
      destruct (Js.ge StringToNumber _ 70); auto;
      destruct (Js.ge StringToNumber _ 40); auto.
Qed.

(** C10.  A [null] score is tagged like an [undefined] one, N/A and not
    Low; so the Re-ranked cell of a lead whose [rerankedScore] came back
    [null] shows N/A. *)
Theorem getScoreTag_null :
  getScoreTag Js.Null = spanNA /\
  getScoreTag Js.Null = getScoreTag Js.Undefined /\
  spanNA <> spanLow /\
  (forall (draft : FormData) (i : Js.value),
      tableRow (mkLead draft i Js.Null) !! 8%nat = Some (Tag spanNA)) /\
  (forall (k : nat) (captured : FormData) (i : Js.value) (st : State),
      awaiting st !! k = Some captured ->
      exists held,
        leads (step (Settle k (Resolved (DataObject i Js.Null))) st)
          = (held ++ [mkLead captured i Js.Null])%list /\
        tableRow (mkLead captured i Js.Null) !! 8%nat = Some (Tag spanNA)).
Proof.
  repeat split; try reflexivity.
  - discriminate.
  - intros k captured i st Hk. exists (leads st).
    split; [|reflexivity]. simpl. rewrite Hk. reflexivity.
Qed.

(** ** One submission *)

Lemma step_settle (k : nat) (captured : FormData) (response : PostResult)
    (st : State) :
  awaiting st !! k = Some captured ->
  step (Settle k response) st =
    handleSubmit_resume captured response
      (setAwaiting (delete k (awaiting st)) st).
Proof. intros Hk. simpl. rewrite Hk. reflexivity. Qed.

Lemma step_settle_none (k : nat) (response : PostResult) (st : State) :
  awaiting st !! k = None -> step (Settle k response) st = st.
Proof. intros Hk. simpl. rewrite Hk. reflexivity. Qed.

Lemma submit_with_consent (backend : FormData -> PostResult) (st : State) :
  Js.ToBoolean (consent (formData st)) = true ->
  submit backend st =
    handleSubmit_resume (formData st) (backend (formData st)) (requested st).
Proof.
  intros Hc. unfold submit. cbn [run].
  assert (Hs : step Submit st =
               axios_post "http://localhost:8000/score" (formData st) st).
  { cbn [step]. unfold handleSubmit. rewrite Hc. reflexivity. }
  rewrite Hs.
  rewrite (step_settle _ (formData st)).
  - f_equal. unfold setAwaiting, axios_post, requested. cbn.
    rewrite (delete_middle (awaiting st) [] (formData st)).
    rewrite app_nil_r. reflexivity.
  - cbn. apply list_lookup_middle. reflexivity.
Qed.

Lemma submit_without_consent_alerts (backend : FormData -> PostResult)
    (st : State) :
  Js.ToBoolean (consent (formData st)) = false ->
  submit backend st = alert "❗ Please consent to data processing." st.
Proof.
  intros Hc. unfold submit. cbn [run].
  assert (Hs : step Submit st =
               alert "❗ Please consent to data processing." st).
  { cbn [step]. unfold handleSubmit. rewrite Hc. reflexivity. }
  rewrite Hs. apply step_settle_none. cbn.
  apply lookup_ge_None_2. lia.
Qed.

Lemma resume_success (captured : FormData) (i r : Js.value) (st : State) :
  let st' := handleSubmit_resume captured (Resolved (DataObject i r)) st in
  leads st' = (leads st ++ [mkLead captured i r])%list /\
  formData st' = initialFormData /\
  form_showToast st' = true /\
  timers st' = (timers st ++ [mkTimer HideFormToast 2000])%list /\
  awaiting st' = awaiting st /\
  requests st' = requests st /\
  alerts st' = alerts st /\
  downloads st' = downloads st /\
  table_showToast st' = table_showToast st.
Proof. repeat split. Qed.

Lemma resume_caught (captured : FormData) (error : Caught) (st : State) :
  let st' := handleSubmit_catch error st in
  leads st' = leads st /\
  formData st' = formData st /\
  alerts st' =
    (alerts st ++
     ["Something went wrong while submitting. Please check your FastAPI backend."])%list /\
  form_showToast st' = form_showToast st /\
  table_showToast st' = table_showToast st /\
  timers st' = timers st /\
  awaiting st' = awaiting st /\
  requests st' = requests st /\
  downloads st' = downloads st.
Proof. repeat split. Qed.

(** C1.  A draft with consent true whose scoring call succeeds with [i] and
    [r]: the submission appends exactly one record to the leads held by
    [App] (one more, the ones held before untouched), that record carries
    the fields of the draft and the scores [i] and [r], and the draft is
    back to its initial value.  The same holds of the continuation when it
    runs later, in whichever state the response finds the page. *)
Theorem submit_success (backend : FormData -> PostResult) (st : State)
    (i r : Js.value) :
  consent (formData st) = Js.Bool true ->
  backend (formData st) = Resolved (DataObject i r) ->
  let st' := submit backend st in
  (exists newLead : Lead,
      leads st' = (leads st ++ [newLead])%list /\
      fields newLead = formData st /\
      initialScore newLead = i /\
      rerankedScore newLead = r) /\
  length (leads st') = S (length (leads st)) /\
  (forall (n : nat) (held : Lead),
      leads st !! n = Some held -> leads st' !! n = Some held) /\
  formData st' = initialFormData /\
  Forall (fun v => v = Js.Str "")
    [ phone (formData st'); email (formData st'); creditScore (formData st');
      ageGroup (formData st'); maritalStatus (formData st');
      comments (formData st'); annualIncome (formData st');
      netWorth (formData st'); employmentStatus (formData st') ] /\
  consent (formData st') = Js.Bool false /\
  (forall (later : State) (k : nat),
      awaiting later !! k = Some (formData st) ->
      let later' := step (Settle k (Resolved (DataObject i r))) later in
      leads later' = (leads later ++ [mkLead (formData st) i r])%list /\
      formData later' = initialFormData).
Proof.
  intros Hc Hb st'.
  assert (Hst' : st' = handleSubmit_resume (formData st)
                         (Resolved (DataObject i r)) (requested st)).
  { unfold st'. rewrite submit_with_consent by (rewrite Hc; reflexivity).
    rewrite Hb. reflexivity. }
  destruct (resume_success (formData st) i r (requested st))
    as (Hleads & Hdraft & _).
  rewrite <- Hst' in Hleads, Hdraft. clearbody st'.
  change (leads (requested st)) with (leads st) in Hleads.
  split; [|split; [|split; [|split; [|split; [|split]]]]].
  - exists (mkLead (formData st) i r). repeat split. exact Hleads.
  - rewrite Hleads, length_app. cbn. lia.
  - intros n held Hn. rewrite Hleads.
    rewrite lookup_app_l; [exact Hn|]. eapply lookup_lt_Some, Hn.
  - exact Hdraft.
  - rewrite Hdraft. repeat constructor.
  - rewrite Hdraft. reflexivity.
  - intros later k Hk later'. unfold later'.
    rewrite (step_settle _ _ _ _ Hk). split; reflexivity.
Qed.

(** C5.  A draft with consent false: the submission appends no record, no
    scoring request goes out, the draft stays as it is; the only effect is
    the alert asking for consent. *)
Theorem submit_without_consent (backend : FormData -> PostResult)
    (st : State) :
  consent (formData st) = Js.Bool false ->
  let st' := submit backend st in
  st' = alert "❗ Please consent to data processing." st /\
  handleSubmit st = alert "❗ Please consent to data processing." st /\
  leads st' = leads st /\
  requests st' = requests st /\
  awaiting st' = awaiting st /\
  formData st' = formData st /\
  alerts st' = (alerts st ++ ["❗ Please consent to data processing."])%list.
Proof.
  intros Hc st'.
  assert (Hf : Js.ToBoolean (consent (formData st)) = false)
    by (rewrite Hc; reflexivity).
  assert (Hst' : st' = alert "❗ Please consent to data processing." st)
    by apply (submit_without_consent_alerts backend st Hf).
  split; [exact Hst'|]. split.
  - unfold handleSubmit. rewrite Hf. reflexivity.
  - rewrite Hst'. repeat split.
Qed.

(** C6.  Whatever the draft, when the scoring call fails (the request is
    rejected: network error or error status) the submission leaves the
    leads as they are, the same records in the same number, and leaves the
    draft as it is; one alert is shown.  The same holds of the [catch]
    clause when it runs later. *)
Theorem submit_failure (backend : FormData -> PostResult) (st : State)
    (reason : Failure) :
  backend (formData st) = Rejected reason ->
  let st' := submit backend st in
  leads st' = leads st /\
  length (leads st') = length (leads st) /\
  formData st' = formData st /\
  (exists message : string, alerts st' = (alerts st ++ [message])%list) /\
  form_showToast st' = form_showToast st /\
  table_showToast st' = table_showToast st /\
  timers st' = timers st /\
  awaiting st' = awaiting st /\
  downloads st' = downloads st /\
  (forall (later : State) (k : nat) (captured : FormData),
      awaiting later !! k = Some captured ->
      let later' := step (Settle k (Rejected reason)) later in
      leads later' = leads later /\
      formData later' = formData later /\
      alerts later' =
        (alerts later ++
         ["Something went wrong while submitting. Please check your FastAPI backend."])%list).
Proof.
  intros Hb st'.
  assert (Hlater : forall (later : State) (k : nat) (captured : FormData),
      awaiting later !! k = Some captured ->
      let later' := step (Settle k (Rejected reason)) later in
      leads later' = leads later /\
      formData later' = formData later /\
      alerts later' =
        (alerts later ++
         ["Something went wrong while submitting. Please check your FastAPI backend."])%list).
  { intros later k captured Hk later'. unfold later'.
    rewrite (step_settle _ _ _ _ Hk). repeat split. }
  destruct (Js.ToBoolean (consent (formData st))) eqn:Hc.
  - assert (Hst' : st' = handleSubmit_catch (RequestError reason) (requested st)).
    { unfold st'. rewrite submit_with_consent by exact Hc.
      rewrite Hb. reflexivity. }
    rewrite Hst'. do 3 (split; [reflexivity|]).
    split; [eexists; reflexivity|].
    do 5 (split; [reflexivity|]). exact Hlater.
  - assert (Hst' : st' = alert "❗ Please consent to data processing." st)
      by apply (submit_without_consent_alerts backend st Hc).
    rewrite Hst'. do 3 (split; [reflexivity|]).
    split; [eexists; reflexivity|].
    do 5 (split; [reflexivity|]). exact Hlater.
Qed.

(** A response without a body is caught in the same way: destructuring
    it throws inside the [try]. *)
Lemma settle_nullish (later : State) (k : nat) (captured : FormData) :
  awaiting later !! k = Some captured ->
  let later' := step (Settle k (Resolved DataNullish)) later in
  leads later' = leads later /\ formData later' = formData later.
Proof.
  intros Hk later'. unfold later'.
  rewrite (step_settle _ _ _ _ Hk). repeat split.
Qed.

(** ** Export *)

(** C8.  With no lead in the table, [exportToCSV] does nothing: the state
    is the same afterwards, so nothing was downloaded, no document was
    produced and the toast is not shown. *)
Theorem exportToCSV_empty (st : State) :
  leads st = [] ->
  exportToCSV st = st /\
  step ExportClick st = st /\
  downloads (exportToCSV st) = downloads st /\
  table_showToast (exportToCSV st) = table_showToast st /\
  timers (exportToCSV st) = timers st.
Proof.
  intros He.
  assert (H : exportToCSV st = st) by (unfold exportToCSV; rewrite He; reflexivity).
  cbn [step]. rewrite H. repeat split.
Qed.

Lemma string_app_nil_r (s : string) : s +:+ "" = s.
Proof. induction s as [|c s IH]; [reflexivity | exact (f_equal (String c) IH)]. Qed.

Lemma string_app_assoc (a b c : string) : (a +:+ b) +:+ c = a +:+ b +:+ c.
Proof. induction a as [|x a IH]; [reflexivity | exact (f_equal (String x) IH)]. Qed.

Lemma concat_empty_cons (x : string) (l : list string) :
  String.concat "" (x :: l) = x +:+ String.concat "" l.
Proof.
  destruct l as [|y l]; cbn; [now rewrite string_app_nil_r | reflexivity].
Qed.

(** Joining with a separator: the first piece, then every other piece
    behind a separator. *)
Lemma concat_separated (sep x : string) (l : list string) :
  String.concat sep (x :: l) =
    x +:+ String.concat "" (map (fun y => sep +:+ y) l).
Proof.
  revert x. induction l as [|y l IH]; intros x.
  - cbn. now rewrite string_app_nil_r.
  - change (String.concat sep (x :: y :: l))
      with (x +:+ sep +:+ String.concat sep (y :: l)).
    rewrite IH. change (map (fun y0 => sep +:+ y0) (y :: l))
      with ((sep +:+ y) :: map (fun y0 => sep +:+ y0) l).
    rewrite concat_empty_cons, string_app_assoc. reflexivity.
Qed.

Lemma join_headers : Js.join fractionToString "," headers = csv_header_line.
Proof. reflexivity. Qed.

Lemma nullish_cell (v : Js.value) :
  Js.join_element fractionToString (Js.nullish v (Js.Str "N/A")) = csv_score v.
Proof. destruct v; reflexivity. Qed.

Lemma join_row (lead : Lead) :
  Js.join fractionToString "," (row lead) = csv_row_line lead.
Proof.
  unfold Js.join, row, csv_row_line.
  cbn [map String.concat]. rewrite !nullish_cell. reflexivity.
Qed.

(** The document that the code builds is the one the specification
    describes. *)
Lemma csvContent_document (held : list Lead) :
  csvContent held = csv_document held.
Proof.
  unfold csvContent, csv_document, rows.
  cbn [map]. rewrite concat_separated, join_headers, !map_map.
  do 2 f_equal. apply map_ext. intros lead. now rewrite join_row.
Qed.

Lemma lines_from_first (a : string) :
  no_newline a = true ->
  forall current tail : string,
    tail = "" \/ (exists t, tail = newline +:+ t) ->
    exists rest, lines_from current (a +:+ tail) = (current +:+ a) :: rest.
Proof.
  induction a as [|c a IH]; intros Ha current tail Htail.
  - rewrite string_app_nil_r. destruct Htail as [-> | [t ->]].
    + exists []. reflexivity.
    + exists (lines_from "" t). reflexivity.
  - cbn in Ha. apply andb_prop in Ha as [Hc Ha].
    apply negb_true_iff in Hc.
    change (lines_from current (String c a +:+ tail))
      with (if Ascii.eqb c (Ascii.ascii_of_nat 10)
            then current :: lines_from "" (a +:+ tail)
            else lines_from (current +:+ String c "") (a +:+ tail)).
    rewrite Hc.
    destruct (IH Ha (current +:+ String c "") tail Htail) as [rest Hrest].
    exists rest. rewrite Hrest, string_app_assoc. reflexivity.
Qed.

Lemma document_tail (held : list Lead) :
  let tail := String.concat "" (map (fun lead => newline +:+ csv_row_line lead) held) in
  tail = "" \/ (exists t, tail = newline +:+ t).
Proof.
  destruct held as [|lead held]; [left; reflexivity | right].
  eexists. cbn [map]. rewrite concat_empty_cons, string_app_assoc.
  reflexivity.
Qed.

(** C3.  With at least one lead, [exportToCSV] hands over one file whose
    content is: first line the nine-column header, then one row for each
    lead in the order of the list; in a row the consent shows as Yes or
    No, a [null] or [undefined] score as N/A, and the comments stand
    between two double quotes, copied as they are, quotes included.  For
    the single record of the specification's example the second line is
    A,a@x.com,700,18-25,Single,"hi",Yes,80,N/A. *)
Theorem exportToCSV_document (st : State) :
  leads st <> [] ->
  downloads (exportToCSV st) =
    (downloads st ++
     [mkDownload "leads_export.csv" "text/csv;charset=utf-8;"
        (csvContent (leads st))])%list /\
  csvContent (leads st) =
    csv_header_line +:+
    String.concat ""
      (map (fun lead => newline +:+ csv_row_line lead) (leads st)) /\
  (exists rest, lines (csvContent (leads st)) = csv_header_line :: rest) /\
  csv_header_line =
    String.concat ","
      [ "Phone"; "Email"; "Credit Score"; "Age Group"; "Marital Status";
        "Comments"; "Consent"; "Initial Score"; "Reranked Score" ] /\
  csv_yes_no (Js.Bool true) = "Yes" /\
  csv_yes_no (Js.Bool false) = "No" /\
  csv_score Js.Null = "N/A" /\
  csv_score Js.Undefined = "N/A" /\
  (forall text : string,
      csv_quoted (Js.Str text) = dquote +:+ text +:+ dquote) /\
  csv_quoted (Js.Str ("say " +:+ dquote +:+ "hi" +:+ dquote)) =
    dquote +:+ "say " +:+ dquote +:+ "hi" +:+ dquote +:+ dquote /\
  lines (csvContent [sampleRecord]) =
    [ csv_header_line;
      "A,a@x.com,700,18-25,Single," +:+ dquote +:+ "hi" +:+ dquote +:+
      ",Yes,80,N/A" ].
Proof.
  intros Hne.
  split; [|split; [|split]].
  - unfold exportToCSV. destruct (leads st) as [|lead held] eqn:E.
    + contradiction.
    + reflexivity.
  - apply csvContent_document.
  - rewrite csvContent_document. unfold csv_document, lines.
    apply (lines_from_first csv_header_line eq_refl "").
    apply document_tail.
  - repeat split; reflexivity.
Qed.

(** ** The leads held by [App] *)

Lemma handleLeadSubmit_leads (lead : Lead) (st : State) :
  leads (handleLeadSubmit lead st) = (leads st ++ [lead])%list.
Proof. reflexivity. Qed.

(** A step either leaves the leads alone or is the arrival of a successful
    response for a suspended submission, whose record goes to the end. *)
Lemma step_leads (ev : Event) (st : State) :
  leads (step ev st) = leads st \/
  exists (k : nat) (captured : FormData) (i r : Js.value),
    ev = Settle k (Resolved (DataObject i r)) /\
    awaiting st !! k = Some captured /\
    leads (step ev st) = (leads st ++ [mkLead captured i r])%list.
Proof.
  destruct ev as [f v | b | | k response | k | ]; cbn [step].
  - left. reflexivity.
  - left. reflexivity.
  - left. unfold handleSubmit.
    destruct (negb (Js.ToBoolean (consent (formData st)))); reflexivity.
  - destruct (awaiting st !! k) as [captured|] eqn:Hk; [|left; reflexivity].
    destruct response as [[|i r]|reason].
    + left. reflexivity.
    + right. exists k, captured, i, r. repeat split. exact Hk.
    + left. reflexivity.
  - left. destruct (timers st !! k) as [t|]; [|reflexivity].
    destruct (callback t); reflexivity.
  - left. unfold exportToCSV. destruct (leads st) eqn:E; exact E.
Qed.

Lemma step_leads_quiet (ev : Event) (st : State) :
  quiet ev = true -> leads (step ev st) = leads st.
Proof.
  intros Hq. destruct (step_leads ev st) as [H | (k & c & i & r & -> & _)].
  - exact H.
  - discriminate Hq.
Qed.

Lemma run_leads_quiet (trace : list Event) (st : State) :
  forallb quiet trace = true -> leads (run trace st) = leads st.
Proof.
  revert st. induction trace as [|ev trace IH]; intros st Hq.
  - reflexivity.
  - cbn in Hq. apply andb_prop in Hq as [Hev Hq].
    cbn [run]. rewrite IH by exact Hq. apply step_leads_quiet, Hev.
Qed.

Lemma run_app (trace more : list Event) (st : State) :
  run (trace ++ more) st = run more (run trace st).
Proof.
  revert st. induction trace as [|ev trace IH]; intros st.
  - reflexivity.
  - cbn. apply IH.
Qed.

Lemma run_leads_prefix (trace : list Event) (st : State) :
  exists added : list Lead, leads (run trace st) = (leads st ++ added)%list.
Proof.
  revert st. induction trace as [|ev trace IH]; intros st.
  - exists []. cbn. now rewrite app_nil_r.
  - cbn [run]. destruct (IH (step ev st)) as [added Hadded].
    destruct (step_leads ev st) as [H | (k & c & i & r & _ & _ & H)].
    + exists added. now rewrite Hadded, H.
    + exists (mkLead c i r :: added). rewrite Hadded, H, <- app_assoc.
      reflexivity.
Qed.

Lemma consent_setField (f : Field) (v : Js.value) (d : FormData) :
  consent (setField f v d) = consent d.
Proof. destruct f; reflexivity. Qed.

Lemma textual_setField (f : Field) (text : string) (d : FormData) :
  textual d -> textual (setField f (Js.Str text) d).
Proof. intros [s Hs]. destruct f; cbn; unfold textual; cbn; eauto. Qed.

Lemma consented_more (st st' : State) (d : FormData) (extra : list Request) :
  requests st' = (requests st ++ extra)%list ->
  consented st d -> consented st' d.
Proof.
  intros Hr [Hc Hin]. split; [exact Hc|].
  rewrite Hr. apply in_or_app. left. exact Hin.
Qed.

Lemma invariant_initial : Invariant initialState.
Proof.
  constructor; cbn.
  - exists false. reflexivity.
  - exists "". reflexivity.
  - constructor.
  - constructor.
Qed.

Lemma invariant_step (ev : Event) (st : State) :
  Invariant st -> Invariant (step ev st).
Proof.
  intros [Hc Ht Ha Hl].
  destruct ev as [f v | b | | k response | k | ]; cbn [step].
  - constructor; try assumption; cbn.
    + now rewrite consent_setField.
    + now apply textual_setField.
  - constructor; try assumption; cbn.
    exists b. reflexivity.
  - unfold handleSubmit.
    destruct (Js.ToBoolean (consent (formData st))) eqn:Hb; cbn [negb].
    + assert (Hmore : forall d, consented st d ->
                consented (axios_post "http://localhost:8000/score"
                             (formData st) st) d).
      { intros d. apply (consented_more st _ d
          [mkRequest "http://localhost:8000/score" (formData st)]).
        reflexivity. }
      constructor; try assumption; cbn [awaiting leads axios_post].
      * apply Forall_app. split.
        -- eapply Forall_impl; [exact Ha|]. cbn. intros d [Hd Hs].
           split; [apply Hmore, Hd | exact Hs].
        -- constructor; [|constructor]. split; [|exact Ht].
           split.
           ++ destruct Hc as [b Hcb]. rewrite Hcb in Hb |- *.
              cbn in Hb. now rewrite Hb.
           ++ cbn. apply in_or_app. right. left. reflexivity.
      * eapply Forall_impl; [exact Hl|]. cbn. intros lead [Hd Hs].
        split; [apply Hmore, Hd | exact Hs].
    + constructor; assumption.
  - destruct (awaiting st !! k) as [captured|] eqn:Hk;
      [|constructor; assumption].
    pose proof (Forall_delete _ _ k Ha) as Hdel.
    pose proof (Forall_lookup_1 _ _ _ _ Ha Hk) as Hcap.
    destruct response as [[|i r]|reason].
    + constructor; assumption.
    + constructor; cbn.
      * exists false. reflexivity.
      * exists "". reflexivity.
      * exact Hdel.
      * apply Forall_app. split; [exact Hl|].
        constructor; [exact Hcap | constructor].
    + constructor; assumption.
  - destruct (timers st !! k) as [t|]; [|constructor; assumption].
    destruct (callback t); constructor; assumption.
  - unfold exportToCSV. destruct (leads st) as [|lead held] eqn:E.
    + constructor; try assumption. rewrite E. constructor.
    + constructor; try assumption. cbn. rewrite E. exact Hl.
Qed.

Lemma invariant_run (trace : list Event) (st : State) :
  Invariant st -> Invariant (run trace st).
Proof.
  revert st. induction trace as [|ev trace IH]; intros st Hst.
  - exact Hst.
  - cbn [run]. apply IH, invariant_step, Hst.
Qed.

(** C2.  In every state the page reaches: a step never edits or removes a
    lead, it either leaves the list as it is or adds one record at its end,
    and it adds one only when the response of a scoring call arrives with
    success for a submission whose draft had consent true; so the list only
    grows at its end, and every record it holds has consent true and a
    scoring request made for it. *)
Theorem leads_append_only (trace : list Event) (ev : Event) :
  let st := run trace initialState in
  (leads (step ev st) = leads st \/
   exists (k : nat) (captured : FormData) (i r : Js.value),
     ev = Settle k (Resolved (DataObject i r)) /\
     awaiting st !! k = Some captured /\
     consent captured = Js.Bool true /\
     In (mkRequest "http://localhost:8000/score" captured) (requests st) /\
     leads (step ev st) = (leads st ++ [mkLead captured i r])%list) /\
  (forall more : list Event,
      exists added : list Lead,
        leads (run more st) = (leads st ++ added)%list) /\
  Forall (fun lead =>
            consent (fields lead) = Js.Bool true /\
            In (mkRequest "http://localhost:8000/score" (fields lead))
               (requests st))
         (leads st).
Proof.
  intros st.
  assert (Hinv : Invariant st) by apply invariant_run, invariant_initial.
  split; [|split].
  - destruct (step_leads ev st) as [H | (k & c & i & r & Hev & Hk & H)].
    + left. exact H.
    + right. exists k, c, i, r.
      destruct (Forall_lookup_1 _ _ _ _ (inv_awaiting st Hinv) Hk)
        as [[Hc Hin] _].
      repeat split; assumption.
  - intros more. apply run_leads_prefix.
  - eapply Forall_impl; [exact (inv_leads st Hinv)|].
    cbn. intros lead [Hd _]. exact Hd.
Qed.

Lemma submit_success_leads (backend : FormData -> PostResult) (st : State)
    (i r : Js.value) :
  consent (formData st) = Js.Bool true ->
  backend (formData st) = Resolved (DataObject i r) ->
  leads (submit backend st) = (leads st ++ [mkLead (formData st) i r])%list.
Proof.
  intros Hc Hb.
  rewrite submit_with_consent by (rewrite Hc; reflexivity).
  rewrite Hb. reflexivity.
Qed.

(** C7, as the code has it.  [handleLeadSubmit] puts the record at the end
    of the list.  Two leads submitted one after the other, the second once
    the submission of the first has completed, both with success, are held
    in that order behind the leads held before; and in general two
    submissions that complete with success leave their records in the
    order in which they complete. *)
Theorem leads_in_completion_order :
  (forall (lead : Lead) (st : State),
      leads (handleLeadSubmit lead st) = (leads st ++ [lead])%list) /\
  (forall (backend1 backend2 : FormData -> PostResult)
          (between : list Event) (st : State) (i1 r1 i2 r2 : Js.value),
      consent (formData st) = Js.Bool true ->
      backend1 (formData st) = Resolved (DataObject i1 r1) ->
      forallb quiet between = true ->
      let st1 := run between (submit backend1 st) in
      consent (formData st1) = Js.Bool true ->
      backend2 (formData st1) = Resolved (DataObject i2 r2) ->
      leads (submit backend2 st1) =
        (leads st ++
         [mkLead (formData st) i1 r1; mkLead (formData st1) i2 r2])%list) /\
  (forall (st : State) (k1 k2 : nat) (captured1 captured2 : FormData)
          (i1 r1 i2 r2 : Js.value),
      awaiting st !! k1 = Some captured1 ->
      let st1 := step (Settle k1 (Resolved (DataObject i1 r1))) st in
      awaiting st1 !! k2 = Some captured2 ->
      leads (step (Settle k2 (Resolved (DataObject i2 r2))) st1) =
        (leads st ++
         [mkLead captured1 i1 r1; mkLead captured2 i2 r2])%list).
Proof.
  split; [|split].
  - intros lead st. reflexivity.
  - intros backend1 backend2 between st i1 r1 i2 r2 Hc1 Hb1 Hq st1 Hc2 Hb2.
    rewrite (submit_success_leads backend2 st1 i2 r2 Hc2 Hb2).
    unfold st1 at 1. rewrite run_leads_quiet by exact Hq.
    rewrite (submit_success_leads backend1 st i1 r1 Hc1 Hb1).
    rewrite <- app_assoc. reflexivity.
  - intros st k1 k2 c1 c2 i1 r1 i2 r2 Hk1 st1 Hk2.
    rewrite (step_settle _ _ _ _ Hk2).
    unfold st1. rewrite (step_settle _ _ _ _ Hk1).
    cbn. rewrite <- app_assoc. reflexivity.
Qed.

(** ** The credit score of a lead *)

Lemma isInteger_sound (q : Q) :
  isInteger q = true -> (q == inject_Z (Qnum (Qred q)))%Q.
Proof.
  unfold isInteger. intros H. apply Pos.eqb_eq in H.
  rewrite <- (Qred_correct q) at 1.
  destruct (Qred q) as [n d]. cbn in H |- *. subst d. reflexivity.
Qed.

Lemma creditScore_valid_sound (d : FormData) :
  creditScore_valid (creditScore d) = true -> inRange d.
Proof.
  unfold creditScore_valid, inRange.
  destruct (creditScore d) as [| | b | n | s]; try discriminate.
  intros H. apply andb_prop in H as [_ H].
  destruct (valueAsNumber s) as [q|] eqn:Hv; [|discriminate].
  apply andb_prop in H as [H Hint]. apply andb_prop in H as [Hlo Hhi].
  apply Qle_bool_iff in Hlo, Hhi. apply isInteger_sound in Hint.
  set (n := Qnum (Qred (q - 300))) in Hint.
  assert (Hq : (q == inject_Z (n + 300))%Q).
  { rewrite inject_Z_plus, <- Hint. ring. }
  exists s, q, (n + 300)%Z.
  split; [reflexivity|]. split; [exact Hv|]. split; [exact Hq|].
  rewrite Hq in Hlo, Hhi.
  change 300%Q with (inject_Z 300) in Hlo.
  change 850%Q with (inject_Z 850) in Hhi.
  rewrite <- Zle_Qle in Hlo, Hhi. split; assumption.
Qed.

Lemma inRange_step (ev : Event) (st : State) :
  Forall inRange (awaiting st) ->
  Forall (fun lead => inRange (fields lead)) (leads st) ->
  validated [ev] st = true ->
  Forall inRange (awaiting (step ev st)) /\
  Forall (fun lead => inRange (fields lead)) (leads (step ev st)).
Proof.
  intros Ha Hl Hv. cbn [validated] in Hv. rewrite andb_true_r in Hv.
  destruct ev as [f v | b | | k response | k | ]; cbn [step].
  - split; assumption.
  - split; assumption.
  - unfold handleSubmit.
    destruct (negb (Js.ToBoolean (consent (formData st)))).
    + split; assumption.
    + split; [|exact Hl]. cbn. apply Forall_app. split; [exact Ha|].
      constructor; [|constructor]. apply creditScore_valid_sound, Hv.
  - destruct (awaiting st !! k) as [captured|] eqn:Hk; [|split; assumption].
    pose proof (Forall_delete _ _ k Ha) as Hdel.
    pose proof (Forall_lookup_1 _ _ _ _ Ha Hk) as Hcap.
    destruct response as [[|i r]|reason]; cbn.
    + split; assumption.
    + split; [exact Hdel|]. apply Forall_app. split; [exact Hl|].
      constructor; [exact Hcap | constructor].
    + split; assumption.
  - destruct (timers st !! k) as [t|]; [|split; assumption].
    destruct (callback t); split; assumption.
  - unfold exportToCSV. destruct (leads st) as [|lead held] eqn:E.
    + split; [exact Ha | rewrite E; constructor].
    + split; [exact Ha | cbn; rewrite E; exact Hl].
Qed.

Lemma inRange_run (trace : list Event) (st : State) :
  Forall inRange (awaiting st) ->
  Forall (fun lead => inRange (fields lead)) (leads st) ->
  validated trace st = true ->
  Forall inRange (awaiting (run trace st)) /\
  Forall (fun lead => inRange (fields lead)) (leads (run trace st)).
Proof.
  revert st. induction trace as [|ev trace IH]; intros st Ha Hl Hv.
  - split; assumption.
  - cbn [validated] in Hv. apply andb_prop in Hv as [Hev Hv].
    destruct (inRange_step ev st Ha Hl) as [Ha' Hl'].
    { cbn [validated]. rewrite Hev. reflexivity. }
    cbn [run]. apply IH; assumption.
Qed.

(** C9, as the code has it.  The credit score of a lead is the text of the
    form's control, a string that [handleSubmit] copies from the draft as
    it is; when the submissions went through the control's constraints
    (required, min 300, max 850, whole steps), that text reads as a whole
    number from 300 to 850. *)
Theorem creditScore_of_leads (trace : list Event) :
  let st := run trace initialState in
  Forall (fun lead => exists s : string, creditScore (fields lead) = Js.Str s)
    (leads st) /\
  (validated trace initialState = true ->
   Forall (fun lead =>
             exists (s : string) (q : Q) (z : Z),
               creditScore (fields lead) = Js.Str s /\
               valueAsNumber s = Some q /\
               (q == inject_Z z)%Q /\
               (300 <= z <= 850)%Z)
     (leads st)) /\
  (forall (k : nat) (captured : FormData) (i r : Js.value),
      awaiting st !! k = Some captured ->
      exists newLead : Lead,
        leads (step (Settle k (Resolved (DataObject i r))) st) =
          (leads st ++ [newLead])%list /\
        creditScore (fields newLead) = creditScore captured).
Proof.
  intros st. split; [|split].
  - assert (Hinv : Invariant st) by apply invariant_run, invariant_initial.
    eapply Forall_impl; [exact (inv_leads st Hinv)|].
    cbn. intros lead [_ Hs]. exact Hs.
  - intros Hv.
    apply (inRange_run trace initialState); [constructor | constructor | exact Hv].
  - intros k captured i r Hk. exists (mkLead captured i r).
    rewrite (step_settle _ _ _ _ Hk). split; reflexivity.
Qed.

(** ** Further properties of the code *)

(** Induction over the states the page reaches. *)
Lemma reachable_ind (P : State -> Prop) :
  P initialState ->
  (forall ev st, Invariant st -> P st -> P (step ev st)) ->
  forall trace : list Event, P (run trace initialState).
Proof.
  intros H0 Hstep.
  assert (H : forall trace st, Invariant st -> P st -> P (run trace st)).
  { induction trace as [|ev trace IH]; intros st Hi Hp; [exact Hp|].
    cbn [run]. apply IH; [apply invariant_step, Hi | apply Hstep; assumption]. }
  intros trace. apply H; [apply invariant_initial | exact H0].
Qed.

Lemma step_submit_consent (st : State) :
  Js.ToBoolean (consent (formData st)) = true ->
  step Submit st = axios_post "http://localhost:8000/score" (formData st) st.
Proof. intros Hc. cbn [step]. unfold handleSubmit. rewrite Hc. reflexivity. Qed.

(** *** The draft *)

(** X1.  An [onChange] of a control stores its text under the control's
    name: the control then reads that text, every other control and the
    consent box read what they read before, nothing but the draft changes,
    and of two changes of the same control the later one stays. *)
Theorem handleChange_field (f g : Field) (text text' : string) (st : State) :
  let st' := step (Change f text) st in
  getField f (formData st') = Js.Str text /\
  (g <> f -> getField g (formData st') = getField g (formData st)) /\
  consent (formData st') = consent (formData st) /\
  st' = setFormData (formData st') st /\
  step (Change f text') st' = step (Change f text') st.
Proof.
  intros st'. unfold st'. cbn [step]. unfold handleChange.
  split; [destruct f; reflexivity|].
  split; [intros Hne; destruct f, g; try reflexivity; contradiction|].
  split; [apply consent_setField|].
  split; [reflexivity|].
  destruct f; reflexivity.
Qed.

(** *** Score tags *)

(** X2.  The tags follow the order of the scores: from a score to a higher
    one the tag never goes down. *)
Theorem getScoreTag_monotone (a b : Q) :
  (a <= b)%Q ->
  (getScoreTag (Js.num a) = spanHigh -> getScoreTag (Js.num b) = spanHigh) /\
  (getScoreTag (Js.num a) = spanMid -> getScoreTag (Js.num b) <> spanLow) /\
  (getScoreTag (Js.num b) = spanLow -> getScoreTag (Js.num a) = spanLow).
Proof.
  intros Hab.
  assert (Hup : forall c, Qle_bool c a = true -> Qle_bool c b = true).
  { intros c Hc. apply Qle_bool_iff. apply Qle_bool_iff in Hc.
    eapply Qle_trans; [exact Hc | exact Hab]. }
  rewrite !getScoreTag_finite.
  destruct (Qle_bool 70 a) eqn:A70.
  - rewrite (Hup _ A70). repeat split; intros; try reflexivity; discriminate.
  - destruct (Qle_bool 40 a) eqn:A40.
    + rewrite (Hup _ A40).
      destruct (Qle_bool 70 b); repeat split; intros; discriminate.
    + destruct (Qle_bool 70 b), (Qle_bool 40 b);
        repeat split; intros; try reflexivity; discriminate.
Qed.


(** *** The table *)

(** X4.  The table as rendered: the Export CSV button is there exactly when
    there are leads, and so is the table, with nine headings and one row of
    nine cells for each lead, in the order of the list; without leads the
    sentence that none were submitted stands in its place.  A click on the
    button, whenever it is there, downloads exactly one file, called
    leads_export.csv, puts the toast up and leaves the leads as they are. *)
Theorem LeadsTable_view (st : State) :
  (view_button (LeadsTable st) = None <-> leads st = []) /\
  (leads st = [] ->
     view_body (LeadsTable st) = NoLeads "No leads submitted yet.") /\
  (leads st <> [] ->
     exists head : list string,
       view_body (LeadsTable st) = Table head (map tableRow (leads st)) /\
       length head = 9%nat /\
       length (map tableRow (leads st)) = length (leads st) /\
       Forall (fun cells => length cells = 9%nat) (map tableRow (leads st))) /\
  (view_button (LeadsTable st) <> None ->
     let st' := step ExportClick st in
     (exists file : Download,
         downloads st' = (downloads st ++ [file])%list /\
         filename file = "leads_export.csv" /\
         content file = csvContent (leads st)) /\
     view_toast (LeadsTable st') = Some "Leads exported as CSV!" /\
     leads st' = leads st).
Proof.
  unfold LeadsTable. cbn [view_button view_body view_toast step].
  unfold exportToCSV.
  destruct (leads st) as [|lead held] eqn:E.
  - split; [split; reflexivity|]. split; [reflexivity|].
    split; intros H; contradiction.
  - split; [split; discriminate|]. split; [discriminate|].
    split.
    + intros _. eexists. split; [reflexivity|]. split; [reflexivity|].
      split; [apply length_map|].
      apply List.Forall_forall. intros cells Hin.
      apply in_map_iff in Hin as (l & <- & _). reflexivity.
    + intros _. split; [|split].
      * eexists. split; [reflexivity|]. split; reflexivity.
      * reflexivity.
      * cbn. exact E.
Qed.

(** *** Submissions *)

(** X5.  Nothing keeps the form from being submitted again while a request
    is out: the draft is still there, a second submit posts it once more,
    and when both requests succeed the lead is held twice. *)
Theorem double_submit (st : State) (i1 r1 i2 r2 : Js.value) :
  consent (formData st) = Js.Bool true ->
  let n := length (awaiting st) in
  let st' :=
    run [ Submit; Submit;
          Settle n (Resolved (DataObject i1 r1));
          Settle n (Resolved (DataObject i2 r2)) ] st in
  formData (step Submit st) = formData st /\
  leads st' =
    (leads st ++
     [mkLead (formData st) i1 r1; mkLead (formData st) i2 r2])%list /\
  map body (requests st') =
    (map body (requests st) ++ [formData st; formData st])%list /\
  awaiting st' = awaiting st.
Proof.
  intros Hc n st'.
  assert (Hb : Js.ToBoolean (consent (formData st)) = true)
    by (rewrite Hc; reflexivity).
  pose proof (step_submit_consent st Hb) as H1.
  set (s1 := axios_post "http://localhost:8000/score" (formData st) st) in *.
  assert (H2 : step Submit s1 =
               axios_post "http://localhost:8000/score" (formData st) s1)
    by (apply (step_submit_consent s1); exact Hb).
  set (s2 := axios_post "http://localhost:8000/score" (formData st) s1) in *.
  assert (Ha2 : awaiting s2 = (awaiting st ++ [formData st; formData st])%list)
    by (cbn; rewrite <- app_assoc; reflexivity).
  assert (Hk2 : awaiting s2 !! n = Some (formData st))
    by (rewrite Ha2; apply list_lookup_middle; reflexivity).
  pose proof (step_settle n _ (Resolved (DataObject i1 r1)) s2 Hk2) as H3.
  set (s3 := handleSubmit_resume (formData st) (Resolved (DataObject i1 r1))
               (setAwaiting (delete n (awaiting s2)) s2)) in *.
  assert (Ha3 : awaiting s3 = (awaiting st ++ [formData st])%list).
  { change (awaiting s3) with (delete n (awaiting s2)).
    rewrite Ha2. apply (delete_middle (awaiting st) [formData st]). }
  assert (Hk3 : awaiting s3 !! n = Some (formData st))
    by (rewrite Ha3; apply list_lookup_middle; reflexivity).
  pose proof (step_settle n _ (Resolved (DataObject i2 r2)) s3 Hk3) as H4.
  assert (Hst' : st' = handleSubmit_resume (formData st)
                         (Resolved (DataObject i2 r2))
                         (setAwaiting (delete n (awaiting s3)) s3)).
  { unfold st'. cbn [run]. rewrite H1, H2, H3, H4. reflexivity. }
  split; [rewrite H1; reflexivity|].
  rewrite Hst'. split; [|split].
  - cbn. rewrite <- app_assoc. reflexivity.
  - cbn. rewrite !map_app, <- app_assoc. reflexivity.
  - change (delete n (awaiting s3) = awaiting st).
    rewrite Ha3. rewrite (delete_middle (awaiting st) []), app_nil_r.
    reflexivity.
Qed.

(** What a quiet event leaves alone. *)
Lemma step_quiet_frame (ev : Event) (st : State) :
  quiet ev = true ->
  awaiting (step ev st) = awaiting st /\
  requests (step ev st) = requests st /\
  alerts (step ev st) = alerts st.
Proof.
  intros Hq. destruct ev as [f v | b | | k response | k | ];
    try discriminate Hq; cbn [step].
  - repeat split.
  - repeat split.
  - destruct (timers st !! k) as [t|]; [|repeat split].
    destruct (callback t); repeat split.
  - unfold exportToCSV. destruct (leads st); repeat split.
Qed.

Lemma run_quiet_frame (trace : list Event) (st : State) :
  forallb quiet trace = true ->
  awaiting (run trace st) = awaiting st /\
  requests (run trace st) = requests st /\
  alerts (run trace st) = alerts st.
Proof.
  revert st. induction trace as [|ev trace IH]; intros st Hq.
  - repeat split.
  - cbn in Hq. apply andb_prop in Hq as [Hev Hq]. cbn [run].
    destruct (IH (step ev st) Hq) as (Ha & Hr & Hal).
    destruct (step_quiet_frame ev st Hev) as (Ha' & Hr' & Hal').
    rewrite Ha, Hr, Hal. repeat split; assumption.
Qed.

(** X6.  While a request is out the form can be edited, and the edits do
    not reach the record: the lead appended on success carries the draft as
    it was at the submit, and the reset of the draft discards what was typed
    in the meantime; on failure the draft keeps what was typed. *)
Theorem edits_while_waiting (between : list Event) (st : State)
    (i r : Js.value) (reason : Failure) :
  consent (formData st) = Js.Bool true ->
  forallb quiet between = true ->
  let k := length (awaiting st) in
  let waiting := run between (step Submit st) in
  awaiting waiting !! k = Some (formData st) /\
  leads waiting = leads st /\
  (let done := step (Settle k (Resolved (DataObject i r))) waiting in
   leads done = (leads st ++ [mkLead (formData st) i r])%list /\
   formData done = initialFormData) /\
  (let failed := step (Settle k (Rejected reason)) waiting in
   leads failed = leads st /\
   formData failed = formData waiting).
Proof.
  intros Hc Hq k waiting.
  assert (Hb : Js.ToBoolean (consent (formData st)) = true)
    by (rewrite Hc; reflexivity).
  assert (Hk : awaiting waiting !! k = Some (formData st)).
  { unfold waiting. destruct (run_quiet_frame between (step Submit st) Hq)
      as (-> & _). rewrite (step_submit_consent st Hb). cbn.
    apply list_lookup_middle. reflexivity. }
  assert (Hl : leads waiting = leads st).
  { unfold waiting. rewrite run_leads_quiet by exact Hq.
    rewrite (step_submit_consent st Hb). reflexivity. }
  split; [exact Hk|]. split; [exact Hl|]. split.
  - cbv zeta. rewrite (step_settle _ _ _ _ Hk). cbn. rewrite Hl.
    split; reflexivity.
  - cbv zeta. rewrite (step_settle _ _ _ _ Hk). cbn. rewrite Hl.
    split; reflexivity.
Qed.

(** *** Requests *)

Lemma requests_step (ev : Event) (st : State) :
  Invariant st ->
  Forall scoringRequest (requests st) /\
    (length (leads st) + length (awaiting st) <= length (requests st))%nat ->
  Forall scoringRequest (requests (step ev st)) /\
    (length (leads (step ev st)) + length (awaiting (step ev st))
     <= length (requests (step ev st)))%nat.
Proof.
  intros [[b Hb] _ _ _] [Hr Hn].
  destruct ev as [f v | c | | k response | k | ]; cbn [step].
  - split; assumption.
  - split; assumption.
  - unfold handleSubmit. rewrite Hb. cbn [Js.ToBoolean].
    destruct b; cbn [negb]; [|split; assumption].
    cbn [requests leads awaiting axios_post]. split.
    + apply Forall_app. split; [exact Hr|].
      constructor; [|constructor]. split; [reflexivity | exact Hb].
    + rewrite !length_app. cbn. lia.
  - destruct (awaiting st !! k) as [captured|] eqn:Hk; [|split; assumption].
    assert (Hd : length (delete k (awaiting st)) = (length (awaiting st) - 1)%nat)
      by (apply length_delete; eauto).
    assert (Hpos : (0 < length (awaiting st))%nat)
      by (apply lookup_lt_Some in Hk; lia).
    destruct response as [[|i r]|reason]; cbn; rewrite ?length_app, Hd; cbn;
      (split; [exact Hr | lia]).
  - destruct (timers st !! k) as [t|]; [|split; assumption].
    destruct (callback t); split; assumption.
  - unfold exportToCSV. destruct (leads st) as [|lead held] eqn:E.
    + rewrite E. split; assumption.
    + cbn. rewrite E. split; assumption.
Qed.

(** X7.  No draft leaves the page without consent: in every state the page
    reaches, each request made went to the scoring address with a draft whose
    consent is true; a request goes out only on a submit of a consenting
    draft; and the leads held and the submissions still waiting together
    never outnumber the requests made (no lead without its request). *)
Theorem requests_need_consent (trace : list Event) (ev : Event) :
  let st := run trace initialState in
  Forall (fun request =>
            url request = "http://localhost:8000/score" /\
            consent (body request) = Js.Bool true)
    (requests st) /\
  (length (leads st) + length (awaiting st) <= length (requests st))%nat /\
  (requests (step ev st) <> requests st ->
     ev = Submit /\
     consent (formData st) = Js.Bool true /\
     requests (step ev st) =
       (requests st ++
        [mkRequest "http://localhost:8000/score" (formData st)])%list).
Proof.
  intros st.
  assert (Hinv : Invariant st) by apply invariant_run, invariant_initial.
  assert (H : Forall scoringRequest (requests st) /\
              (length (leads st) + length (awaiting st)
               <= length (requests st))%nat).
  { unfold st. apply reachable_ind.
    - split; [constructor | cbn; lia].
    - intros ev0 st0. apply requests_step. }
  destruct H as [Hr Hn]. split; [exact Hr|]. split; [exact Hn|].
  intros Hne. destruct (quiet ev) eqn:Hq.
  - destruct (step_quiet_frame ev st Hq) as (_ & Hsame & _). contradiction.
  - destruct ev as [f v | c | | k response | k | ]; try discriminate Hq.
    + destruct (inv_consent st Hinv) as [b Hb].
      revert Hne. cbn [step]. unfold handleSubmit. rewrite Hb.
      cbn [Js.ToBoolean]. destruct b; cbn [negb].
      * intros _. repeat split.
      * intros Hne. exfalso. apply Hne. reflexivity.
    + exfalso. apply Hne. cbn [step].
      destruct (awaiting st !! k) as [captured|]; [|reflexivity].
      destruct response as [[|i r]|reason]; reflexivity.
Qed.

(** *** Toasts *)

Lemma in_delete_other {A : Type} (x y : A) (l : list A) (k : nat) :
  In x l -> l !! k = Some y -> x <> y -> In x (delete k l).
Proof.
  revert k. induction l as [|a l IH]; intros k Hin Hk Hne; [contradiction|].
  destruct k as [|k]; cbn in Hk |- *.
  - injection Hk as ->. destruct Hin as [-> | Hin]; [contradiction | exact Hin].
  - destruct Hin as [-> | Hin]; [left; reflexivity | right].
    eapply IH; eauto.
Qed.

Lemma toastsTimed_step (ev : Event) (st : State) :
  toastsTimed st -> toastsTimed (step ev st).
Proof.
  intros [Hf Ht].
  destruct ev as [f v | c | | k response | k | ]; cbn [step].
  - split; assumption.
  - split; assumption.
  - unfold handleSubmit.
    destruct (negb (Js.ToBoolean (consent (formData st)))); split; assumption.
  - destruct (awaiting st !! k) as [captured|]; [|split; assumption].
    destruct response as [[|i r]|reason]; [split; assumption | | split; assumption].
    split; cbn.
    + intros _. apply in_or_app. right. left. reflexivity.
    + intros H. apply in_or_app. left. apply Ht, H.
  - destruct (timers st !! k) as [t|] eqn:Hk; [|split; assumption].
    destruct t as [cb ms]. destruct cb; split; cbn.
    + discriminate.
    + intros H. apply (in_delete_other _ _ _ _ (Ht H) Hk). discriminate.
    + intros H. apply (in_delete_other _ _ _ _ (Hf H) Hk). discriminate.
    + discriminate.
  - unfold exportToCSV. destruct (leads st) as [|lead held].
    + split; assumption.
    + split; cbn.
      * intros H. apply in_or_app. left. apply Hf, H.
      * intros _. apply in_or_app. right. left. reflexivity.
Qed.

(** X8.  A toast never stays up for good: in every state the page reaches,
    whenever the toast of the form or of the table is shown, the timer that
    hides it, set for 2000 ms, is pending, and hides it once it fires. *)
Theorem toasts_come_down (trace : list Event) :
  let st := run trace initialState in
  (LeadForm_toast st <> None ->
     exists k : nat,
       timers st !! k = Some (mkTimer HideFormToast 2000) /\
       LeadForm_toast (step (Fire k) st) = None) /\
  (view_toast (LeadsTable st) <> None ->
     exists k : nat,
       timers st !! k = Some (mkTimer HideTableToast 2000) /\
       view_toast (LeadsTable (step (Fire k) st)) = None).
Proof.
  intros st.
  assert (H : toastsTimed st).
  { unfold st. apply reachable_ind.
    - split; discriminate.
    - intros ev st0 _. apply toastsTimed_step. }
  destruct H as [Hf Ht]. split.
  - unfold LeadForm_toast at 1. intros Hshown.
    destruct (form_showToast st) eqn:E; [|contradiction].
    apply list_elem_of_In, list_elem_of_lookup_1 in Hf as [k Hk];
      [|reflexivity].
    exists k. split; [exact Hk|]. cbn [step]. rewrite Hk. reflexivity.
  - unfold LeadsTable at 1. cbn [view_toast]. intros Hshown.
    destruct (table_showToast st) eqn:E; [|contradiction].
    apply list_elem_of_In, list_elem_of_lookup_1 in Ht as [k Hk];
      [|reflexivity].
    exists k. split; [exact Hk|]. cbn [step]. rewrite Hk. reflexivity.
Qed.

(** *** Alerts *)


(** *** The export *)

Lemma lines_from_line (a : string) :
  no_newline a = true ->
  forall current rest : string,
    lines_from current (a +:+ newline +:+ rest) =
      (current +:+ a) :: lines_from "" rest.
Proof.
  induction a as [|c a IH]; intros Ha current rest.
  - rewrite string_app_nil_r. reflexivity.
  - cbn in Ha. apply andb_prop in Ha as [Hc Ha].
    apply negb_true_iff in Hc.
    change (lines_from current (String c a +:+ newline +:+ rest))
      with (if Ascii.eqb c (Ascii.ascii_of_nat 10)
            then current :: lines_from "" (a +:+ newline +:+ rest)
            else lines_from (current +:+ String c "") (a +:+ newline +:+ rest)).
    rewrite Hc, (IH Ha), string_app_assoc. reflexivity.
Qed.

Lemma lines_from_last (a : string) :
  no_newline a = true ->
  forall current : string, lines_from current a = [current +:+ a].
Proof.
  induction a as [|c a IH]; intros Ha current.
  - rewrite string_app_nil_r. reflexivity.
  - cbn in Ha. apply andb_prop in Ha as [Hc Ha].
    apply negb_true_iff in Hc.
    change (lines_from current (String c a))
      with (if Ascii.eqb c (Ascii.ascii_of_nat 10)
            then current :: lines_from "" a
            else lines_from (current +:+ String c "") a).
    rewrite Hc, (IH Ha), string_app_assoc. reflexivity.
Qed.

Lemma lines_rows (held : list Lead) :
  Forall (fun lead => no_newline (csv_row_line lead) = true) held ->
  forall first : string,
    no_newline first = true ->
    lines_from ""
      (first +:+
       String.concat "" (map (fun lead => newline +:+ csv_row_line lead) held)) =
      first :: map csv_row_line held.
Proof.
  induction 1 as [|lead held Hlead Hheld IH]; intros first Hfirst.
  - cbn [map String.concat]. rewrite string_app_nil_r.
    apply (lines_from_last first Hfirst "").
  - cbn [map]. rewrite concat_empty_cons, string_app_assoc.
    rewrite (lines_from_line first Hfirst "").
    rewrite (IH _ Hlead). reflexivity.
Qed.

(** X10.  The exported text reads back line by line: when no row contains a
    line feed, the lines of the document are the header followed by the
    rows of the leads, one line each and in their order, so that there is
    one line more than there are leads. *)
Theorem csvContent_lines (held : list Lead) :
  Forall (fun lead => no_newline (Js.join fractionToString "," (row lead)) = true)
    held ->
  lines (csvContent held) =
    Js.join fractionToString "," headers ::
    map (fun lead => Js.join fractionToString "," (row lead)) held /\
  length (lines (csvContent held)) = S (length held).
Proof.
  intros Hrows.
  assert (Hl : lines (csvContent held) = csv_header_line :: map csv_row_line held).
  { rewrite csvContent_document. unfold csv_document, lines.
    apply lines_rows; [|reflexivity].
    eapply Forall_impl; [exact Hrows|]. cbn. intros lead H.
    now rewrite <- join_row. }
  split.
  - rewrite Hl, join_headers. f_equal. apply map_ext. intros lead.
    now rewrite join_row.
  - rewrite Hl. cbn. now rewrite length_map.
Qed.

(** X11.  An export changes nothing of the data and can be repeated: the
    leads, the draft, the submissions waiting, the requests and the alerts
    are as before, and as long as no submission starts or completes a later
    export downloads the same text again. *)
Theorem export_repeatable (between : list Event) (st : State) :
  leads st <> [] ->
  forallb quiet between = true ->
  let first := exportToCSV st in
  let later := run between first in
  leads first = leads st /\
  formData first = formData st /\
  awaiting first = awaiting st /\
  requests first = requests st /\
  alerts first = alerts st /\
  downloads (exportToCSV later) =
    (downloads later ++
     [mkDownload "leads_export.csv" "text/csv;charset=utf-8;"
        (csvContent (leads st))])%list.
Proof.
  intros Hne Hq first later.
  assert (Hfirst : leads first = leads st /\ formData first = formData st /\
                   awaiting first = awaiting st /\
                   requests first = requests st /\ alerts first = alerts st).
  { unfold first, exportToCSV. destruct (leads st) eqn:E; repeat split;
      exact E. }
  destruct Hfirst as (Hl & Hd & Ha & Hr & Hal).
  do 5 (split; [assumption|]).
  assert (Hlater : leads later = leads st).
  { unfold later. rewrite run_leads_quiet by exact Hq. exact Hl. }
  unfold exportToCSV. rewrite Hlater.
  destruct (leads st) as [|lead held]; [contradiction | reflexivity].
Qed.

(** *** Leads that came through the form *)

Lemma allText_initial : allText initialFormData.
Proof. split; [intros f; destruct f; eexists; reflexivity | eexists; reflexivity]. Qed.

Lemma allText_setField (f : Field) (text : string) (d : FormData) :
  allText d -> allText (setField f (Js.Str text) d).
Proof.
  intros [Hf Hc]. split.
  - intros g. destruct (Hf g) as [s Hs].
    destruct f, g; cbn in Hs |- *; eauto.
  - rewrite consent_setField. exact Hc.
Qed.

Lemma allText_setConsent (b : bool) (d : FormData) :
  allText d -> allText (setConsent (Js.Bool b) d).
Proof.
  intros [Hf _]. split.
  - intros g. destruct (Hf g) as [s Hs]. exists s. destruct g; exact Hs.
  - exists b. reflexivity.
Qed.

Lemma allText_step (ev : Event) (st : State) :
  allText (formData st) /\ Forall allText (awaiting st) /\
    Forall (fun lead => allText (fields lead)) (leads st) ->
  allText (formData (step ev st)) /\ Forall allText (awaiting (step ev st)) /\
    Forall (fun lead => allText (fields lead)) (leads (step ev st)).
Proof.
  intros (Hd & Ha & Hl).
  destruct ev as [f v | c | | k response | k | ]; cbn [step].
  - split; [apply allText_setField, Hd | split; assumption].
  - split; [apply allText_setConsent, Hd | split; assumption].
  - unfold handleSubmit.
    destruct (negb (Js.ToBoolean (consent (formData st)))).
    + split; [|split]; assumption.
    + split; [exact Hd|]. split; [|exact Hl]. cbn.
      apply Forall_app. split; [exact Ha|]. constructor; [exact Hd | constructor].
  - destruct (awaiting st !! k) as [captured|] eqn:Hk;
      [|split; [|split]; assumption].
    pose proof (Forall_delete _ _ k Ha) as Hdel.
    pose proof (Forall_lookup_1 _ _ _ _ Ha Hk) as Hcap.
    destruct response as [[|i r]|reason]; cbn.
    + split; [|split]; assumption.
    + split; [apply allText_initial|]. split; [exact Hdel|].
      apply Forall_app. split; [exact Hl|]. constructor; [exact Hcap | constructor].
    + split; [|split]; assumption.
  - destruct (timers st !! k) as [t|]; [|split; [|split]; assumption].
    destruct (callback t); split; [| split | | split]; assumption.
  - unfold exportToCSV. destruct (leads st) as [|lead held] eqn:E.
    + rewrite E. split; [|split]; assumption.
    + cbn. rewrite E. split; [|split]; assumption.
Qed.

(** X12.  Every lead that came in through the form holds text in all nine
    controls and consent true; so in its row of the export the five leading
    cells and the comments are these texts as typed, the comments between
    double quotes, and the consent cell, in the export as in the table, is
    always Yes. *)
Theorem form_leads_rows (trace : list Event) :
  Forall (fun lead =>
            consent (fields lead) = Js.Bool true /\
            row lead !! 6%nat = Some (Js.Str "Yes") /\
            tableRow lead !! 6%nat = Some (Text (Js.Str "Yes")) /\
            exists p e c a m co : string,
              getField Phone (fields lead) = Js.Str p /\
              getField Email (fields lead) = Js.Str e /\
              getField CreditScore (fields lead) = Js.Str c /\
              getField AgeGroup (fields lead) = Js.Str a /\
              getField MaritalStatus (fields lead) = Js.Str m /\
              getField Comments (fields lead) = Js.Str co /\
              Js.join fractionToString "," (row lead) =
                p +:+ "," +:+ e +:+ "," +:+ c +:+ "," +:+ a +:+ "," +:+
                m +:+ "," +:+ (dquote +:+ co +:+ dquote) +:+ "," +:+
                "Yes" +:+ "," +:+
                Js.join_element fractionToString
                  (Js.nullish (initialScore lead) (Js.Str "N/A")) +:+ "," +:+
                Js.join_element fractionToString
                  (Js.nullish (rerankedScore lead) (Js.Str "N/A")))
    (leads (run trace initialState)).
Proof.
  assert (Hinv : Invariant (run trace initialState))
    by apply invariant_run, invariant_initial.
  assert (Htext : Forall (fun lead => allText (fields lead))
                    (leads (run trace initialState))).
  { apply (reachable_ind
             (fun st => allText (formData st) /\ Forall allText (awaiting st) /\
                        Forall (fun lead => allText (fields lead)) (leads st))).
    - split; [apply allText_initial | split; constructor].
    - intros ev st _. apply allText_step. }
  pose proof (inv_leads _ Hinv) as Hcons.
  apply List.Forall_forall. intros lead Hin.
  rewrite List.Forall_forall in Htext, Hcons.
  destruct (Hcons lead Hin) as [[Hc _] _].
  destruct (Htext lead Hin) as [Hf _].
  split; [exact Hc|].
  split; [cbn [row lookup list_lookup]; rewrite Hc; reflexivity|].
  split; [cbn [tableRow lookup list_lookup]; rewrite Hc; reflexivity|].
  destruct (Hf Phone) as [p Hp]. destruct (Hf Email) as [e He].
  destruct (Hf CreditScore) as [c Hcs]. destruct (Hf AgeGroup) as [a Hag].
  destruct (Hf MaritalStatus) as [m Hm]. destruct (Hf Comments) as [co Hco].
  exists p, e, c, a, m, co. do 6 (split; [assumption|]).
  cbn [getField] in Hp, He, Hcs, Hag, Hm, Hco.
  unfold Js.join, row. rewrite Hp, He, Hcs, Hag, Hm, Hco, Hc. reflexivity.
Qed.

End Frontend.

(** ** The theorems at concrete inputs *)

Lemma submit_success_witness :
  consent (formData (filledState "+91-1")) = Js.Bool true /\
  scoringOk (formData (filledState "+91-1")) =
    Resolved (DataObject (Js.num 80) (Js.num 75)) /\
  leads (submit slashToString scoringOk (filledState "+91-1")) =
    [mkLead (sampleDraft "+91-1") (Js.num 80) (Js.num 75)] /\
  formData (submit slashToString scoringOk (filledState "+91-1")) =
    initialFormData.
Proof.
  split; [reflexivity|]. split; [reflexivity|].
  pose proof (submit_success slashToString scoringOk (filledState "+91-1")
                (Js.num 80) (Js.num 75) eq_refl eq_refl) as H.
  cbv zeta in H.
  destruct H as ((newLead & Hl & Hf & Hi & Hr) & _ & _ & Hd & _).
  split; [|exact Hd].
  rewrite Hl. destruct newLead as [f i r]. cbn in Hf, Hi, Hr.
  rewrite Hf, Hi, Hr. reflexivity.
Defined.

Lemma submit_without_consent_witness :
  consent (formData initialState) = Js.Bool false /\
  leads (submit slashToString scoringOk initialState) = [] /\
  requests (submit slashToString scoringOk initialState) = [] /\
  formData (submit slashToString scoringOk initialState) = initialFormData.
Proof.
  split; [reflexivity|].
  pose proof (submit_without_consent slashToString scoringOk initialState
                eq_refl) as H.
  cbv zeta in H. destruct H as (_ & _ & Hl & Hr & _ & Hd & _).
  split; [exact Hl|]. split; [exact Hr | exact Hd].
Defined.

Lemma submit_failure_witness :
  scoringDown (formData (filledState "+91-1")) = Rejected NetworkError /\
  leads (submit slashToString scoringDown (filledState "+91-1")) = [] /\
  formData (submit slashToString scoringDown (filledState "+91-1")) =
    sampleDraft "+91-1".
Proof.
  split; [reflexivity|].
  pose proof (submit_failure slashToString scoringDown (filledState "+91-1")
                NetworkError eq_refl) as H.
  cbv zeta in H. destruct H as (Hl & _ & Hd & _).
  split; [exact Hl | exact Hd].
Defined.

Lemma exportToCSV_empty_witness :
  leads initialState = [] /\
  exportToCSV slashToString initialState = initialState.
Proof.
  split; [reflexivity|].
  exact (proj1 (exportToCSV_empty slashToString initialState eq_refl)).
Defined.

Lemma exportToCSV_document_witness :
  leads tableState <> [] /\
  downloads (exportToCSV slashToString tableState) =
    [mkDownload "leads_export.csv" "text/csv;charset=utf-8;"
       (csvContent slashToString [sampleRecord])].
Proof.
  assert (Hne : leads tableState <> []) by discriminate.
  split; [exact Hne|].
  exact (proj1 (exportToCSV_document slashToString tableState Hne)).
Defined.

Lemma getScoreTag_thresholds_witness :
  ((70 <= 85)%Q /\ getScoreTag decimalToNumber (Js.num 85) = spanHigh) /\
  ((40 <= 55)%Q /\ (55 < 70)%Q /\
   getScoreTag decimalToNumber (Js.num 55) = spanMid) /\
  ((12 < 40)%Q /\ getScoreTag decimalToNumber (Js.num 12) = spanLow).
Proof.
  destruct (getScoreTag_thresholds decimalToNumber) as (Hh & Hm & Hl & _).
  assert (H1 : (70 <= 85)%Q) by (unfold Qle; cbn; lia).
  assert (H2 : (40 <= 55)%Q) by (unfold Qle; cbn; lia).
  assert (H3 : (55 < 70)%Q) by reflexivity.
  assert (H4 : (12 < 40)%Q) by reflexivity.
  split; [split; [exact H1 | exact (Hh _ H1)]|].
  split; [split; [exact H2 | split; [exact H3 | exact (Hm _ H2 H3)]]|].
  split; [exact H4 | exact (Hl _ H4)].
Defined.

Lemma getScoreTag_null_witness :
  awaiting (step slashToString Submit (filledState "+91-1")) !! 0%nat =
    Some (sampleDraft "+91-1") /\
  exists held : list Lead,
    leads (step slashToString
             (Settle 0 (Resolved (DataObject (Js.num 80) Js.Null)))
             (step slashToString Submit (filledState "+91-1"))) =
      (held ++ [mkLead (sampleDraft "+91-1") (Js.num 80) Js.Null])%list /\
    tableRow decimalToNumber (mkLead (sampleDraft "+91-1") (Js.num 80) Js.Null)
      !! 8%nat = Some (Tag spanNA).
Proof.
  split; [reflexivity|].
  destruct (getScoreTag_null slashToString decimalToNumber)
    as (_ & _ & _ & _ & H).
  exact (H 0%nat (sampleDraft "+91-1") (Js.num 80)
           (step slashToString Submit (filledState "+91-1")) eq_refl).
Defined.

Lemma leads_in_completion_order_witness :
  (consent (formData (filledState "+91-1")) = Js.Bool true /\
   forallb quiet (fillIn "+91-2") = true /\
   leads (submit slashToString scoringOk'
            (run slashToString (fillIn "+91-2")
               (submit slashToString scoringOk (filledState "+91-1")))) =
     [ mkLead (sampleDraft "+91-1") (Js.num 80) (Js.num 75);
       mkLead (sampleDraft "+91-2") (Js.num 55) (Js.num 60) ]) /\
  (let st := run slashToString (fillIn "+91-1" ++ [Submit; Change Phone "+91-2"; Submit])
               initialState in
   awaiting st !! 0%nat = Some (sampleDraft "+91-1") /\
   leads (run slashToString [Settle 0 (scored 80 75); Settle 0 (scored 55 60)] st) =
     [ mkLead (sampleDraft "+91-1") (Js.num 80) (Js.num 75);
       mkLead (sampleDraft "+91-2") (Js.num 55) (Js.num 60) ]).
Proof.
  destruct (leads_in_completion_order slashToString) as (_ & Hseq & Hany).
  split.
  - split; [reflexivity|]. split; [reflexivity|].
    exact (Hseq scoringOk scoringOk' (fillIn "+91-2") (filledState "+91-1")
             (Js.num 80) (Js.num 75) (Js.num 55) (Js.num 60)
             eq_refl eq_refl eq_refl eq_refl eq_refl).
  - split; [reflexivity|].
    exact (Hany
             (run slashToString
                (fillIn "+91-1" ++ [Submit; Change Phone "+91-2"; Submit])
                initialState)
             0%nat 0%nat (sampleDraft "+91-1") (sampleDraft "+91-2")
             (Js.num 80) (Js.num 75) (Js.num 55) (Js.num 60)
             eq_refl eq_refl).
Defined.

Lemma creditScore_of_leads_witness :
  validated slashToString decimalAsNumber singleTrace initialState = true /\
  Forall (fun lead =>
            exists (s : string) (q : Q) (z : Z),
              creditScore (fields lead) = Js.Str s /\
              decimalAsNumber s = Some q /\
              (q == inject_Z z)%Q /\
              (300 <= z <= 850)%Z)
    (leads (run slashToString singleTrace initialState)).
Proof.
  split; [reflexivity|].
  pose proof (creditScore_of_leads slashToString decimalAsNumber singleTrace)
    as H.
  cbv zeta in H. destruct H as (_ & H & _).
  exact (H eq_refl).
Defined.

(** ** Where the specification and the code part *)

(** C7, as stated, fails.  Two leads are submitted one after the other, the
    second while the request of the first is still out; both requests
    succeed, the second one first.  The leads are then held in the order of
    the responses, the second lead before the first. *)
Lemma overlapping_submissions_reorder :
  let st := run slashToString overlappingTrace initialState in
  map body (requests st) = [sampleDraft "+91-1"; sampleDraft "+91-2"] /\
  awaiting st = [] /\
  alerts st = [] /\
  leads st =
    [ mkLead (sampleDraft "+91-2") (Js.num 55) (Js.num 60);
      mkLead (sampleDraft "+91-1") (Js.num 80) (Js.num 75) ] /\
  leads st <>
    [ mkLead (sampleDraft "+91-1") (Js.num 80) (Js.num 75);
      mkLead (sampleDraft "+91-2") (Js.num 55) (Js.num 60) ].
Proof.
  cbv zeta. repeat split. discriminate.
Qed.

(** C9, as stated, fails.  A lead entered through the form with 700 in the
    credit score control, the control's constraints satisfied: the record
    holds the text of the control, the string "700", and no number. *)
Lemma creditScore_is_text :
  let st := run slashToString singleTrace initialState in
  validated slashToString decimalAsNumber singleTrace initialState = true /\
  leads st = [mkLead (sampleDraft "+91-1") (Js.num 80) (Js.num 75)] /\
  creditScore (sampleDraft "+91-1") = Js.Str "700" /\
  ~ (Forall (fun lead =>
               exists z : Z,
                 creditScore (fields lead) = Js.num (inject_Z z) /\
                 (300 <= z <= 850)%Z)
       (leads st)).
Proof.
  cbv zeta. repeat split.
  intros H. apply Forall_inv in H. destruct H as (z & Hz & _).
  discriminate Hz.
Qed.

(** ** The further properties at concrete inputs *)

Lemma handleChange_field_witness :
  Email <> Phone /\
  getField Phone
    (formData (step slashToString (Change Phone "+91-7") (filledState "+91-1"))) =
    Js.Str "+91-7" /\
  getField Email
    (formData (step slashToString (Change Phone "+91-7") (filledState "+91-1"))) =
    Js.Str "john@example.com".
Proof.
  assert (Hne : Email <> Phone) by discriminate.
  pose proof (handleChange_field slashToString Phone Email "+91-7" ""
                (filledState "+91-1")) as H.
  cbv zeta in H. destruct H as (H1 & H2 & _).
  split; [exact Hne|]. split; [exact H1 | exact (H2 Hne)].
Defined.

Lemma getScoreTag_monotone_witness :
  (55 <= 85)%Q /\
  getScoreTag decimalToNumber (Js.num 55) = spanMid /\
  getScoreTag decimalToNumber (Js.num 85) <> spanLow.
Proof.
  assert (H : (55 <= 85)%Q) by (unfold Qle; cbn; lia).
  destruct (getScoreTag_monotone decimalToNumber _ _ H) as (_ & Hm & _).
  split; [exact H|]. split; [reflexivity | exact (Hm eq_refl)].
Defined.


Lemma LeadsTable_view_witness :
  (leads initialState = [] /\
   view_body (LeadsTable decimalToNumber initialState) =
     NoLeads "No leads submitted yet.") /\
  (leads tableState <> [] /\
   exists head : list string,
     view_body (LeadsTable decimalToNumber tableState) =
       Table head [tableRow decimalToNumber sampleRecord]) /\
  (view_button (LeadsTable decimalToNumber tableState) <> None /\
   leads (step slashToString ExportClick tableState) = [sampleRecord]).
Proof.
  destruct (LeadsTable_view slashToString decimalToNumber initialState)
    as (_ & Hempty & _).
  destruct (LeadsTable_view slashToString decimalToNumber tableState)
    as (_ & _ & Htable & Hclick).
  assert (Hne : leads tableState <> []) by discriminate.
  assert (Hb : view_button (LeadsTable decimalToNumber tableState) <> None)
    by discriminate.
  split; [split; [reflexivity | exact (Hempty eq_refl)]|].
  split.
  - split; [exact Hne|]. destruct (Htable Hne) as (head & Hbody & _).
    exists head. exact Hbody.
  - split; [exact Hb|]. pose proof (Hclick Hb) as H. cbv zeta in H.
    destruct H as (_ & _ & Hl). exact Hl.
Defined.

Lemma double_submit_witness :
  consent (formData (filledState "+91-1")) = Js.Bool true /\
  leads (run slashToString
           [ Submit; Submit; Settle 0 (scored 80 75); Settle 0 (scored 55 60) ]
           (filledState "+91-1")) =
    [ mkLead (sampleDraft "+91-1") (Js.num 80) (Js.num 75);
      mkLead (sampleDraft "+91-1") (Js.num 55) (Js.num 60) ].
Proof.
  split; [reflexivity|].
  pose proof (double_submit slashToString (filledState "+91-1")
                (Js.num 80) (Js.num 75) (Js.num 55) (Js.num 60) eq_refl) as H.
  cbv zeta in H. destruct H as (_ & Hl & _). exact Hl.
Defined.

Lemma edits_while_waiting_witness :
  consent (formData (filledState "+91-1")) = Js.Bool true /\
  forallb quiet [Change Phone "+91-9"; Change Comments "call later"] = true /\
  formData (run slashToString
              [Submit; Change Phone "+91-9"; Change Comments "call later"]
              (filledState "+91-1")) <> sampleDraft "+91-1" /\
  leads (run slashToString
           [ Submit; Change Phone "+91-9"; Change Comments "call later";
             Settle 0 (scored 80 75) ]
           (filledState "+91-1")) =
    [mkLead (sampleDraft "+91-1") (Js.num 80) (Js.num 75)] /\
  formData (run slashToString
              [ Submit; Change Phone "+91-9"; Change Comments "call later";
                Settle 0 (scored 80 75) ]
              (filledState "+91-1")) = initialFormData.
Proof.
  split; [reflexivity|]. split; [reflexivity|]. split; [discriminate|].
  pose proof (edits_while_waiting slashToString
                [Change Phone "+91-9"; Change Comments "call later"]
                (filledState "+91-1") (Js.num 80) (Js.num 75) NetworkError
                eq_refl eq_refl) as H.
  cbv zeta in H. destruct H as (_ & _ & (Hl & Hd) & _).
  split; [exact Hl | exact Hd].
Defined.

Lemma requests_need_consent_witness :
  requests (step slashToString Submit
              (run slashToString (fillIn "+91-1") initialState)) <>
    requests (run slashToString (fillIn "+91-1") initialState) /\
  consent (formData (run slashToString (fillIn "+91-1") initialState)) =
    Js.Bool true.
Proof.
  assert (Hne : requests (step slashToString Submit
                            (run slashToString (fillIn "+91-1") initialState)) <>
                requests (run slashToString (fillIn "+91-1") initialState))
    by discriminate.
  pose proof (requests_need_consent slashToString (fillIn "+91-1") Submit) as H.
  cbv zeta in H. destruct H as (_ & _ & H).
  split; [exact Hne|]. exact (proj1 (proj2 (H Hne))).
Defined.

Lemma toasts_come_down_witness :
  LeadForm_toast (run slashToString singleTrace initialState) <> None /\
  exists k : nat,
    timers (run slashToString singleTrace initialState) !! k =
      Some (mkTimer HideFormToast 2000) /\
    LeadForm_toast
      (step slashToString (Fire k) (run slashToString singleTrace initialState)) =
      None.
Proof.
  assert (Hshown : LeadForm_toast (run slashToString singleTrace initialState)
                   <> None) by discriminate.
  pose proof (toasts_come_down slashToString decimalToNumber singleTrace) as H.
  cbv zeta in H. destruct H as (H & _).
  split; [exact Hshown | exact (H Hshown)].
Defined.

Lemma csvContent_lines_witness :
  Forall (fun lead =>
            no_newline (Js.join slashToString "," (row slashToString lead)) = true)
    [sampleRecord; sampleRecord] /\
  length (lines (csvContent slashToString [sampleRecord; sampleRecord])) = 3%nat.
Proof.
  assert (H : Forall (fun lead =>
                        no_newline
                          (Js.join slashToString "," (row slashToString lead)) =
                        true)
                [sampleRecord; sampleRecord])
    by (repeat constructor).
  split; [exact H|].
  exact (proj2 (csvContent_lines slashToString [sampleRecord; sampleRecord] H)).
Defined.

Lemma export_repeatable_witness :
  leads tableState <> [] /\
  forallb quiet [Change Phone "+91-7"; Check true] = true /\
  downloads
    (exportToCSV slashToString
       (run slashToString [Change Phone "+91-7"; Check true]
          (exportToCSV slashToString tableState))) =
    [ mkDownload "leads_export.csv" "text/csv;charset=utf-8;"
        (csvContent slashToString [sampleRecord]);
      mkDownload "leads_export.csv" "text/csv;charset=utf-8;"
        (csvContent slashToString [sampleRecord]) ].
Proof.
  assert (Hne : leads tableState <> []) by discriminate.
  pose proof (export_repeatable slashToString [Change Phone "+91-7"; Check true]
                tableState Hne eq_refl) as H.
  cbv zeta in H. destruct H as (_ & _ & _ & _ & _ & H).
  split; [exact Hne|]. split; [reflexivity | exact H].
Defined.
